(** * SmartPot firmware: display, touch and sensor control core

    Shallow embedding of [Firmware/smart_plant_ui copy 48.py] (MicroPython,
    RP2040 + ILI9341 + XPT2046) and the properties its specification states.

    Python integers are unbounded and are modelled by [Z].  Sensor values
    that the firmware keeps as floats (temperature, humidity) are modelled
    by [Q]: every finite float is a rational and the firmware only compares
    them with small integer thresholds, which is exact. *)

From Stdlib Require Import ZArith List Bool Lia QArith Ascii.
Import ListNotations.
Local Open Scope Z_scope.

(** ** MicroPython primitives used by the firmware *)

Module MicroPython.

(** [time.ticks_ms()] counts modulo [TICKS_PERIOD]; [time.ticks_diff] is the
    signed difference on that ring (py/extmod/modtime: add half a period,
    mask, subtract half a period). *)
Definition TICKS_PERIOD : Z := 2 ^ 30.

Definition ticks_diff (ticks1 ticks2 : Z) : Z :=
  (ticks1 - ticks2 + TICKS_PERIOD / 2) mod TICKS_PERIOD - TICKS_PERIOD / 2.

(** [struct.pack(">H", v)]: two bytes, most significant first.  MicroPython
    stores the low 16 bits of [v] and performs no range check. *)
Definition pack_H (v : Z) : list Z :=
  [Z.land (Z.shiftr v 8) 255; Z.land v 255].

(** [struct.pack(">HH", a, b)]. *)
Definition pack_HH (a b : Z) : list Z := pack_H a ++ pack_H b.

(** The 16-bit value a receiver reads back from two big-endian bytes. *)
Definition unpack_H (bs : list Z) : Z :=
  match bs with
  | [hi; lo] => Z.lor (Z.shiftl hi 8) lo
  | _ => 0
  end.

(** [int(a / b)] for integers [a], [b]: true division followed by truncation
    toward zero.  For the operands the firmware uses ([|a| < 2^21], [b] a
    small positive constant) the dividend is exactly representable and a
    non-integral quotient lies at least [1/b] away from the next integer, far
    more than the rounding error of the float division, so the truncated
    float quotient is the truncated exact quotient. *)
Definition int_truediv (a b : Z) : Z := Z.quot a b.

(** [range(n)] as the list [0; 1; ...; n-1] (empty when [n <= 0]). *)
Definition range (n : Z) : list Z := map Z.of_nat (seq 0 (Z.to_nat n)).

End MicroPython.

Import MicroPython.

(** ** Display constants *)

Definition ILI9341_CASET : Z := 0x2A.
Definition ILI9341_PASET : Z := 0x2B.
Definition ILI9341_RAMWR : Z := 0x2C.

Definition TOUCH_CMD_X : Z := 0x90.
Definition TOUCH_CMD_Y : Z := 0xD0.

(** ** [color565] *)

(** The first positional argument of [color565] is either an integer red
    channel or a 3-tuple that overrides all three channels
    ([r, g, b = r] succeeds only for the tuple). *)
Inductive color_arg : Type :=
| Channel (r : Z)
| Triple (r g b : Z).

Definition color565_packed (r g b : Z) : Z :=
  Z.lor (Z.lor (Z.shiftl (Z.land r 0xf8) 8) (Z.shiftl (Z.land g 0xfc) 3))
        (Z.shiftr b 3).

Definition color565 (r : color_arg) (g b : Z) : Z :=
  match r with
  | Triple r' g' b' => color565_packed r' g' b'
  | Channel r' => color565_packed r' g b
  end.

(** ** Bus transport

    Everything the firmware does to a bus is recorded as a [bus_op].  The
    display bus is write-only, so the display routines below simply return
    the operations they issue; the touch bus is read back, so the touch
    routines run in a small state monad over [spi_bus]. *)

Inductive bus_op : Type :=
| CsOff
| CsOn
| DcOff
| DcOn
| SpiWrite (data : list Z)
| SpiRead (nbytes : Z)
| DelayMs (ms : Z).

Record spi_bus : Type := mkBus {
  miso : list (list Z);   (* replies the device gives to the coming reads *)
  wire : list bus_op      (* operations issued so far, oldest first *)
}.

Definition io (A : Type) : Type := spi_bus -> A * spi_bus.

Definition ret {A : Type} (a : A) : io A := fun bus => (a, bus).

Definition bind {A B : Type} (m : io A) (k : A -> io B) : io B :=
  fun bus => let (a, bus') := m bus in k a bus'.

Declare Scope io_scope.
Delimit Scope io_scope with io.
Notation "x <- m ;; k" := (bind m (fun x => k))
  (at level 61, m at next level, right associativity) : io_scope.
Notation "m ;; k" := (bind m (fun _ => k))
  (at level 61, right associativity) : io_scope.

Definition issue (op : bus_op) : io unit :=
  fun bus => (tt, mkBus (miso bus) (wire bus ++ [op])).

(** [spi.read(n)]: the device's next reply; an idle line reads as zeros. *)
Definition spi_read (n : Z) : io (list Z) :=
  fun bus =>
    match miso bus with
    | reply :: rest => (reply, mkBus rest (wire bus ++ [SpiRead n]))
    | [] => (repeat 0 (Z.to_nat n), mkBus [] (wire bus ++ [SpiRead n]))
    end.

(** ** [TouchController] *)

Record TouchController : Type := mkTouchController {
  cal_x_min : Z;
  cal_x_max : Z;
  cal_y_min : Z;
  cal_y_max : Z
}.

(** [TouchController.__init__]: the calibration constants. *)
Definition TouchController_init : TouchController :=
  mkTouchController 200 3800 200 3800.

Local Open Scope io_scope.

Definition read_touch_raw (cmd : Z) : io Z :=
  issue CsOff ;;
  issue (DelayMs 1) ;;
  issue (SpiWrite [cmd]) ;;
  issue (DelayMs 1) ;;
  result <- spi_read 2 ;;
  issue (DelayMs 1) ;;
  issue CsOn ;;
  ret (match result with
       | [b0; b1] => Z.land (Z.shiftr (Z.lor (Z.shiftl b0 8) b1) 3) 0x0FFF
       | _ => 0
       end).

(** The test on one raw pair in the sampling loop. *)
Definition valid_reading (x_raw y_raw : Z) : bool :=
  (x_raw >? 100) && (y_raw >? 100) && (x_raw <? 4000) && (y_raw <? 4000).

(** The body of [for i in range(3)], run [n] times on the accumulators
    [(x_sum, y_sum, valid_readings)]. *)
Fixpoint sample_loop (n : nat) (acc : Z * Z * Z) : io (Z * Z * Z) :=
  match n with
  | O => ret acc
  | S n' =>
      x_raw <- read_touch_raw TOUCH_CMD_X ;;
      y_raw <- read_touch_raw TOUCH_CMD_Y ;;
      let '(x_sum, y_sum, valid_readings) := acc in
      sample_loop n'
        (if valid_reading x_raw y_raw
         then (x_sum + x_raw, y_sum + y_raw, valid_readings + 1)
         else acc)
  end.

(** "In Bildschirmkoordinaten umwandeln" and "Grenzen pruefen" for one axis:
    [int((avg - cal_min) * extent / (cal_max - cal_min))], then
    [max(0, min(extent - 1, ...))]; the source writes the two extents as the
    literals 320 / 319 and 240 / 239. *)
Definition to_screen (cal_min cal_max extent avg : Z) : Z :=
  Z.max 0 (Z.min (extent - 1)
                 (int_truediv ((avg - cal_min) * extent) (cal_max - cal_min))).

Definition calibrate (self : TouchController) (x_avg y_avg : Z) : Z * Z :=
  (to_screen (cal_x_min self) (cal_x_max self) 320 x_avg,
   to_screen (cal_y_min self) (cal_y_max self) 240 y_avg).

(** [get_touch]; [irq_state] is what [self.irq.value()] returned. *)
Definition get_touch (self : TouchController) (irq_state : Z)
  : io (option (Z * Z)) :=
  if irq_state =? 1 then ret None
  else
    sums <- sample_loop 3 (0, 0, 0) ;;
    let '(x_sum, y_sum, valid_readings) := sums in
    if valid_readings =? 0 then ret None
    else
      let x_avg := x_sum / valid_readings in
      let y_avg := y_sum / valid_readings in
      ret (Some (calibrate self x_avg y_avg)).

Local Close Scope io_scope.

(** ** [SmartPlantDisplay] *)

(** The [sensor_data] dictionary.  ['light_voltage'] is a float that is only
    printed and is left out. *)
Record SensorData : Type := mkSensorData {
  temperature : Q;
  humidity : Q;
  light : Z;
  light_raw : Z;
  water_level : Z;
  plant_health : Z
}.

(** The [last_displayed_values] dictionary. *)
Record DisplayedValues : Type := mkDisplayedValues {
  displayed_light : Z;
  displayed_temperature : Q;
  displayed_humidity : Q;
  displayed_plant_health : Z
}.

(** The fields of the display object that the control logic reads or
    writes; [cs] tells whether a chip-select pin was passed. *)
Record SmartPlantDisplay : Type := mkSmartPlantDisplay {
  width : Z;
  height : Z;
  cs : bool;
  current_screen : Z;
  last_update : Z;
  last_touch_time : Z;
  manual_mode : bool;
  last_drawn_screen : Z;
  screen_needs_redraw : bool;
  last_light_value : Z;
  data_needs_update : bool;
  last_motion_time : Z;
  motion_timeout : Z;
  motion_timeout_seconds : Z;
  last_motion_check : Z;
  audio_played : bool;
  reward_played : bool;
  last_displayed_values : DisplayedValues;
  sensor_data : SensorData
}.

Definition set_current_screen (v : Z) (self : SmartPlantDisplay)
  : SmartPlantDisplay :=
  mkSmartPlantDisplay (width self) (height self) (cs self) v
    (last_update self) (last_touch_time self) (manual_mode self)
    (last_drawn_screen self) (screen_needs_redraw self)
    (last_light_value self) (data_needs_update self) (last_motion_time self)
    (motion_timeout self) (motion_timeout_seconds self)
    (last_motion_check self) (audio_played self) (reward_played self)
    (last_displayed_values self) (sensor_data self).

Definition set_last_touch_time (v : Z) (self : SmartPlantDisplay)
  : SmartPlantDisplay :=
  mkSmartPlantDisplay (width self) (height self) (cs self)
    (current_screen self) (last_update self) v (manual_mode self)
    (last_drawn_screen self) (screen_needs_redraw self)
    (last_light_value self) (data_needs_update self) (last_motion_time self)
    (motion_timeout self) (motion_timeout_seconds self)
    (last_motion_check self) (audio_played self) (reward_played self)
    (last_displayed_values self) (sensor_data self).

Definition set_manual_mode (v : bool) (self : SmartPlantDisplay)
  : SmartPlantDisplay :=
  mkSmartPlantDisplay (width self) (height self) (cs self)
    (current_screen self) (last_update self) (last_touch_time self) v
    (last_drawn_screen self) (screen_needs_redraw self)
    (last_light_value self) (data_needs_update self) (last_motion_time self)
    (motion_timeout self) (motion_timeout_seconds self)
    (last_motion_check self) (audio_played self) (reward_played self)
    (last_displayed_values self) (sensor_data self).

Definition set_screen_needs_redraw (v : bool) (self : SmartPlantDisplay)
  : SmartPlantDisplay :=
  mkSmartPlantDisplay (width self) (height self) (cs self)
    (current_screen self) (last_update self) (last_touch_time self)
    (manual_mode self) (last_drawn_screen self) v (last_light_value self)
    (data_needs_update self) (last_motion_time self) (motion_timeout self)
    (motion_timeout_seconds self) (last_motion_check self) (audio_played self)
    (reward_played self) (last_displayed_values self) (sensor_data self).

Definition set_last_light_value (v : Z) (self : SmartPlantDisplay)
  : SmartPlantDisplay :=
  mkSmartPlantDisplay (width self) (height self) (cs self)
    (current_screen self) (last_update self) (last_touch_time self)
    (manual_mode self) (last_drawn_screen self) (screen_needs_redraw self) v
    (data_needs_update self) (last_motion_time self) (motion_timeout self)
    (motion_timeout_seconds self) (last_motion_check self) (audio_played self)
    (reward_played self) (last_displayed_values self) (sensor_data self).

Definition set_data_needs_update (v : bool) (self : SmartPlantDisplay)
  : SmartPlantDisplay :=
  mkSmartPlantDisplay (width self) (height self) (cs self)
    (current_screen self) (last_update self) (last_touch_time self)
    (manual_mode self) (last_drawn_screen self) (screen_needs_redraw self)
    (last_light_value self) v (last_motion_time self) (motion_timeout self)
    (motion_timeout_seconds self) (last_motion_check self) (audio_played self)
    (reward_played self) (last_displayed_values self) (sensor_data self).

Definition set_last_motion_time (v : Z) (self : SmartPlantDisplay)
  : SmartPlantDisplay :=
  mkSmartPlantDisplay (width self) (height self) (cs self)
    (current_screen self) (last_update self) (last_touch_time self)
    (manual_mode self) (last_drawn_screen self) (screen_needs_redraw self)
    (last_light_value self) (data_needs_update self) v (motion_timeout self)
    (motion_timeout_seconds self) (last_motion_check self) (audio_played self)
    (reward_played self) (last_displayed_values self) (sensor_data self).

Definition set_motion_timeout (v : Z) (self : SmartPlantDisplay)
  : SmartPlantDisplay :=
  mkSmartPlantDisplay (width self) (height self) (cs self)
    (current_screen self) (last_update self) (last_touch_time self)
    (manual_mode self) (last_drawn_screen self) (screen_needs_redraw self)
    (last_light_value self) (data_needs_update self) (last_motion_time self) v
    (motion_timeout_seconds self) (last_motion_check self) (audio_played self)
    (reward_played self) (last_displayed_values self) (sensor_data self).

Definition set_motion_timeout_seconds (v : Z) (self : SmartPlantDisplay)
  : SmartPlantDisplay :=
  mkSmartPlantDisplay (width self) (height self) (cs self)
    (current_screen self) (last_update self) (last_touch_time self)
    (manual_mode self) (last_drawn_screen self) (screen_needs_redraw self)
    (last_light_value self) (data_needs_update self) (last_motion_time self)
    (motion_timeout self) v (last_motion_check self) (audio_played self)
    (reward_played self) (last_displayed_values self) (sensor_data self).

Definition set_last_motion_check (v : Z) (self : SmartPlantDisplay)
  : SmartPlantDisplay :=
  mkSmartPlantDisplay (width self) (height self) (cs self)
    (current_screen self) (last_update self) (last_touch_time self)
    (manual_mode self) (last_drawn_screen self) (screen_needs_redraw self)
    (last_light_value self) (data_needs_update self) (last_motion_time self)
    (motion_timeout self) (motion_timeout_seconds self) v (audio_played self)
    (reward_played self) (last_displayed_values self) (sensor_data self).

Definition set_audio_played (v : bool) (self : SmartPlantDisplay)
  : SmartPlantDisplay :=
  mkSmartPlantDisplay (width self) (height self) (cs self)
    (current_screen self) (last_update self) (last_touch_time self)
    (manual_mode self) (last_drawn_screen self) (screen_needs_redraw self)
    (last_light_value self) (data_needs_update self) (last_motion_time self)
    (motion_timeout self) (motion_timeout_seconds self)
    (last_motion_check self) v (reward_played self)
    (last_displayed_values self) (sensor_data self).

Definition set_reward_played (v : bool) (self : SmartPlantDisplay)
  : SmartPlantDisplay :=
  mkSmartPlantDisplay (width self) (height self) (cs self)
    (current_screen self) (last_update self) (last_touch_time self)
    (manual_mode self) (last_drawn_screen self) (screen_needs_redraw self)
    (last_light_value self) (data_needs_update self) (last_motion_time self)
    (motion_timeout self) (motion_timeout_seconds self)
    (last_motion_check self) (audio_played self) v
    (last_displayed_values self) (sensor_data self).

Definition set_sensor_data (v : SensorData) (self : SmartPlantDisplay)
  : SmartPlantDisplay :=
  mkSmartPlantDisplay (width self) (height self) (cs self)
    (current_screen self) (last_update self) (last_touch_time self)
    (manual_mode self) (last_drawn_screen self) (screen_needs_redraw self)
    (last_light_value self) (data_needs_update self) (last_motion_time self)
    (motion_timeout self) (motion_timeout_seconds self)
    (last_motion_check self) (audio_played self) (reward_played self)
    (last_displayed_values self) v.

(** [SmartPlantDisplay.__init__]; [cs_pin] tells whether [cs] was given and
    [current_time] is the [time.ticks_ms()] read at line 211. *)
Definition SmartPlantDisplay_init (cs_pin : bool) (current_time : Z)
  : SmartPlantDisplay :=
  {| width := 320;
     height := 240;
     cs := cs_pin;
     current_screen := 0;
     last_update := 0;
     last_touch_time := 0;
     manual_mode := false;
     last_drawn_screen := -1;
     screen_needs_redraw := true;
     last_light_value := 0;
     data_needs_update := false;
     last_motion_time := current_time;
     motion_timeout := 30000;
     motion_timeout_seconds := 30;
     last_motion_check := 0;
     audio_played := false;
     reward_played := false;
     last_displayed_values := mkDisplayedValues 0 0 0 0;
     sensor_data := mkSensorData (45 # 2) 65 750 32767 80 85 |}.

(** *** Display protocol driver *)

Definition dc_low : list bus_op := [DcOff].
Definition dc_high : list bus_op := [DcOn].

Definition cs_low (self : SmartPlantDisplay) : list bus_op :=
  if cs self then [CsOff] else [].

Definition cs_high (self : SmartPlantDisplay) : list bus_op :=
  if cs self then [CsOn] else [].

(** A [data] argument: an [int] (sent as one byte) or a bytes object. *)
Inductive payload : Type :=
| IntData (n : Z)
| BytesData (bs : list Z).

Definition payload_bytes (data : payload) : list Z :=
  match data with
  | IntData n => [n]
  | BytesData bs => bs
  end.

Definition write_cmd (self : SmartPlantDisplay) (cmd : Z) : list bus_op :=
  cs_low self ++ dc_low ++ [SpiWrite [cmd]] ++ cs_high self.

Definition write_data (self : SmartPlantDisplay) (data : payload)
  : list bus_op :=
  cs_low self ++ dc_high ++ [SpiWrite (payload_bytes data)] ++ cs_high self.

Definition write_cmd_data (self : SmartPlantDisplay) (cmd : Z)
  (data : option payload) : list bus_op :=
  cs_low self ++ dc_low ++ [SpiWrite [cmd]] ++
  match data with
  | Some d => dc_high ++ [SpiWrite (payload_bytes d)]
  | None => []
  end ++ cs_high self.

Definition set_window (self : SmartPlantDisplay) (x0 y0 x1 y1 : Z)
  : list bus_op :=
  write_cmd_data self ILI9341_CASET (Some (BytesData (pack_HH x0 x1))) ++
  write_cmd_data self ILI9341_PASET (Some (BytesData (pack_HH y0 y1))) ++
  write_cmd self ILI9341_RAMWR.

(** The two clipping tests at the head of [fill_rect]: the width and height
    the rest of the routine works with. *)
Definition fill_rect_clip (self : SmartPlantDisplay) (x y w h : Z) : Z * Z :=
  let w := if x + w >? width self then width self - x else w in
  let h := if y + h >? height self then height self - y else h in
  (w, h).

(** The arguments [fill_rect] passes to [set_window]. *)
Definition fill_rect_window (self : SmartPlantDisplay) (x y w h : Z)
  : Z * Z * Z * Z :=
  let '(w, h) := fill_rect_clip self x y w h in
  (x, y, x + w - 1, y + h - 1).

Definition fill_rect (self : SmartPlantDisplay) (x y w h color : Z)
  : list bus_op :=
  let '(w, h) := fill_rect_clip self x y w h in
  set_window self x y (x + w - 1) (y + h - 1) ++
  let pixel_data := pack_H color in
  cs_low self ++ dc_high ++
  flat_map (fun _ => [SpiWrite pixel_data]) (range (w * h)) ++
  cs_high self.

Definition pixel (self : SmartPlantDisplay) (x y color : Z) : list bus_op :=
  if (0 <=? x) && (x <? width self) && (0 <=? y) && (y <? height self)
  then set_window self x y x y ++ write_data self (BytesData (pack_H color))
  else [].

(** What a receiver decodes from a trace: the 16-bit column and row bounds
    carried by every CASET / PASET payload, in the order they were sent. *)
Fixpoint window_coordinates (trace : list bus_op) : list Z :=
  match trace with
  | SpiWrite [cmd] :: DcOn :: SpiWrite [a1; a0; b1; b0] :: rest =>
      if (cmd =? ILI9341_CASET) || (cmd =? ILI9341_PASET)
      then unpack_H [a1; a0] :: unpack_H [b1; b0] :: window_coordinates rest
      else window_coordinates rest
  | _ :: rest => window_coordinates rest
  | [] => []
  end.

(** *** Motion sensor and audio cues *)

(** The two audio routines the motion logic can invoke.  Each of them
    handles its own failures, so an invocation never raises. *)
Inductive audio_call : Type :=
| play_reward_sound
| play_punishment_sound.

(** [read_motion_sensor]; [current_time] is [time.ticks_ms()] and
    [motion_state] is [self.motion_pin.value()].  Returns the boolean result,
    the updated object and the audio routines invoked, in order.  Neither
    input can raise, so the [except] branch is not reachable. *)
Definition read_motion_sensor (current_time motion_state : Z)
  (self : SmartPlantDisplay) : bool * SmartPlantDisplay * list audio_call :=
  if motion_state =? 1 then
    let self := set_last_motion_time current_time self in
    let self := set_audio_played false self in
    if negb (reward_played self)
    then (true, set_reward_played true self, [play_reward_sound])
    else (true, self, [])
  else
    let self := set_reward_played false self in
    if ticks_diff current_time (last_motion_check self) >? 5000 then
      let self := set_last_motion_check current_time self in
      if ticks_diff current_time (last_motion_time self) >? motion_timeout self
      then
        if negb (audio_played self)
        then (false, set_audio_played true self, [play_punishment_sound])
        else (false, self, [])
      else (false, self, [])
    else (false, self, []).

(** Successive polls: each element is [(current_time, motion_state)]. *)
Fixpoint poll_motion (polls : list (Z * Z)) (self : SmartPlantDisplay)
  : SmartPlantDisplay * list audio_call :=
  match polls with
  | [] => (self, [])
  | (current_time, motion_state) :: rest =>
      let '(_, self', calls) := read_motion_sensor current_time motion_state self in
      let '(self'', calls') := poll_motion rest self' in
      (self'', calls ++ calls')
  end.

Definition is_reward (c : audio_call) : bool :=
  match c with play_reward_sound => true | play_punishment_sound => false end.

Definition is_punishment (c : audio_call) : bool :=
  match c with play_punishment_sound => true | play_reward_sound => false end.

Definition rewards (calls : list audio_call) : nat :=
  length (filter is_reward calls).

Definition punishments (calls : list audio_call) : nat :=
  length (filter is_punishment calls).

(** *** Sensor update and plant health *)

Definition Qgtb (a b : Q) : bool := negb (Qle_bool a b).
Definition Qltb (a b : Q) : bool := negb (Qle_bool b a).

Definition Qabs (a : Q) : Q := if Qle_bool 0 a then a else Qopp a.

(** Lines 1133-1141: the health score from the current temperature, the
    light value just read and the current humidity. *)
Definition health_score (temperature : Q) (light_value : Z) (humidity : Q)
  : Z :=
  let health := 100 in
  let health :=
    if Qltb temperature 18 || Qgtb temperature 28 then health - 15 else health in
  let health := if light_value <? 300 then health - 20 else health in
  let health :=
    if Qltb humidity 40 || Qgtb humidity 80 then health - 15 else health in
  Z.max 0 (Z.min 100 health).

Definition set_temperature (v : Q) (d : SensorData) : SensorData :=
  mkSensorData v (humidity d) (light d) (light_raw d) (water_level d)
    (plant_health d).

Definition set_humidity (v : Q) (d : SensorData) : SensorData :=
  mkSensorData (temperature d) v (light d) (light_raw d) (water_level d)
    (plant_health d).

Definition set_light (v raw : Z) (d : SensorData) : SensorData :=
  mkSensorData (temperature d) (humidity d) v raw (water_level d)
    (plant_health d).

Definition set_plant_health (v : Z) (d : SensorData) : SensorData :=
  mkSensorData (temperature d) (humidity d) (light d) (light_raw d)
    (water_level d) v.

(** How a call of [update_sensor_data] ends.  The module never imports
    [random], so the branch that simulates a missing DHT11 reading raises
    [NameError] at its first [random.uniform]. *)
Inductive update_result : Type :=
| Returned (self : SmartPlantDisplay) (calls : list audio_call)
| NameError (self : SmartPlantDisplay) (calls : list audio_call).

(** [update_sensor_data].  The sensor reads are inputs: [(light_value,
    light_raw)] from [read_light_sensor], [dht] from
    [read_temp_humidity_sensor] ([None] for its [(None, None)]), and the
    clock and pin value consumed by [read_motion_sensor]. *)
Definition update_sensor_data (light_value light_raw : Z)
  (dht : option (Q * Q)) (current_time motion_state : Z)
  (self : SmartPlantDisplay) : update_result :=
  let '(_, self, calls) := read_motion_sensor current_time motion_state self in
  let self :=
    if Z.abs (light_value - last_light_value self) >? 5
    then set_data_needs_update true self else self in
  match dht with
  | None => NameError self calls
  | Some (real_temp, real_humidity) =>
      let self :=
        if Qgtb (Qabs (real_temp - temperature (sensor_data self))) (1 # 10)
        then set_sensor_data (set_temperature real_temp (sensor_data self)) self
        else self in
      let self :=
        if Qgtb (Qabs (real_humidity - humidity (sensor_data self))) 1
        then set_sensor_data (set_humidity real_humidity (sensor_data self)) self
        else self in
      let self :=
        if Qgtb (Qabs (temperature (sensor_data self)
                       - displayed_temperature (last_displayed_values self)))
                (1 # 10)
           || Qgtb (Qabs (humidity (sensor_data self)
                          - displayed_humidity (last_displayed_values self)))
                   1
        then set_data_needs_update true self else self in
      let self :=
        set_sensor_data (set_light light_value light_raw (sensor_data self)) self in
      let self := set_last_light_value light_value self in
      let health :=
        health_score (temperature (sensor_data self)) light_value
                     (humidity (sensor_data self)) in
      Returned (set_sensor_data (set_plant_health health (sensor_data self)) self)
               calls
  end.

(** *** Screen controller *)

(** The [for i, preset in enumerate(presets)] loop of the Settings screen:
    the first preset whose button contains [x] is applied, then [break]. *)
Fixpoint apply_presets (presets : list (Z * Z)) (x : Z)
  (self : SmartPlantDisplay) : SmartPlantDisplay :=
  match presets with
  | [] => self
  | (i, preset) :: rest =>
      let button_x := 20 + i * 70 in
      if (button_x <=? x) && (x <=? button_x + 60) then
        let self := set_motion_timeout_seconds preset self in
        let self := set_motion_timeout (preset * 1000) self in
        set_screen_needs_redraw true self
      else apply_presets rest x self
  end.

Definition presets : list Z := [15; 30; 60; 120].

(** [enumerate(l)]. *)
Definition enumerate {A : Type} (l : list A) : list (Z * A) :=
  combine (range (Z.of_nat (length l))) l.

(** Lines 1152-1220 of [handle_touch]: the navigation-bar test and, above
    the bar, the hit tests of the screen shown. *)
Definition touch_dispatch (x y : Z) (self : SmartPlantDisplay)
  : SmartPlantDisplay :=
  let nav_y := height self - 40 in
  if y >=? nav_y then
    let button_width := width self / 2 in
    if x <? button_width then set_current_screen 0 self
    else set_current_screen 2 self
  else if current_screen self =? 0 then
    if (20 <=? y) && (y <=? 100) then
      if (10 <=? x) && (x <=? 100) then set_current_screen 1 self
      else if (110 <=? x) && (x <=? 200) then set_current_screen 1 self
      else if (210 <=? x) && (x <=? 300) then set_current_screen 1 self
      else self
    else if (110 <=? y) && (y <=? 190) then
      if (10 <=? x) && (x <=? 100) then set_current_screen 1 self
      else if (110 <=? x) && (x <=? 300) then set_current_screen 1 self
      else self
    else self
  else if current_screen self =? 1 then set_current_screen 0 self
  else if current_screen self =? 2 then
    let settings_y := 50 in
    let fine_y := settings_y + 50 in
    let preset_y := fine_y + 40 in
    if (settings_y <=? y) && (y <=? settings_y + 40) then
      if (20 <=? x) && (x <=? 80) then
        let self :=
          set_motion_timeout_seconds
            (Z.max 5 (motion_timeout_seconds self - 10)) self in
        let self :=
          set_motion_timeout (motion_timeout_seconds self * 1000) self in
        set_screen_needs_redraw true self
      else if (240 <=? x) && (x <=? 300) then
        let self :=
          set_motion_timeout_seconds
            (Z.min 300 (motion_timeout_seconds self + 10)) self in
        let self :=
          set_motion_timeout (motion_timeout_seconds self * 1000) self in
        set_screen_needs_redraw true self
      else self
    else if (fine_y <=? y) && (y <=? fine_y + 30) then
      if (50 <=? x) && (x <=? 100) then
        let self :=
          set_motion_timeout_seconds
            (Z.max 5 (motion_timeout_seconds self - 5)) self in
        let self :=
          set_motion_timeout (motion_timeout_seconds self * 1000) self in
        set_screen_needs_redraw true self
      else if (220 <=? x) && (x <=? 270) then
        let self :=
          set_motion_timeout_seconds
            (Z.min 300 (motion_timeout_seconds self + 5)) self in
        let self :=
          set_motion_timeout (motion_timeout_seconds self * 1000) self in
        set_screen_needs_redraw true self
      else self
    else if (preset_y <=? y) && (y <=? preset_y + 25) then
      apply_presets (enumerate presets) x self
    else self
  else self.

(** [handle_touch(x, y)]; [current_time] is the [time.ticks_ms()] read at
    line 1150. *)
Definition handle_touch (current_time x y : Z) (self : SmartPlantDisplay)
  : SmartPlantDisplay :=
  let old_screen := current_screen self in
  let self := set_manual_mode true self in
  let self := set_last_touch_time current_time self in
  let self := touch_dispatch x y self in
  if negb (old_screen =? current_screen self)
  then set_screen_needs_redraw true self
  else self.

(** A sequence of touches, each [(current_time, x, y)]. *)
Fixpoint handle_touches (touches : list (Z * Z * Z))
  (self : SmartPlantDisplay) : SmartPlantDisplay :=
  match touches with
  | [] => self
  | (current_time, x, y) :: rest =>
      handle_touches rest (handle_touch current_time x y self)
  end.

(** [check_auto_mode_timeout]; [current_time] is the [time.ticks_ms()] read
    when [manual_mode] is set. *)
Definition check_auto_mode_timeout (current_time : Z)
  (self : SmartPlantDisplay) : SmartPlantDisplay :=
  if manual_mode self then
    if ticks_diff current_time (last_touch_time self) >? 60000
    then set_manual_mode false self
    else self
  else self.

(** Successive calls of [check_auto_mode_timeout] at the given clock
    readings, with no touch in between. *)
Fixpoint check_timeouts (times : list Z) (self : SmartPlantDisplay)
  : SmartPlantDisplay :=
  match times with
  | [] => self
  | current_time :: rest =>
      check_timeouts rest (check_auto_mode_timeout current_time self)
  end.

(** How many of those calls switched [manual_mode] from true to false. *)
Fixpoint auto_mode_transitions (times : list Z) (self : SmartPlantDisplay)
  : nat :=
  match times with
  | [] => O
  | current_time :: rest =>
      let self' := check_auto_mode_timeout current_time self in
      ((if manual_mode self && negb (manual_mode self') then 1 else 0)
       + auto_mode_transitions rest self')%nat
  end.

(** *** Hit regions of the screen layout

    The rectangles (inclusive bounds [x0 <= x <= x1], [y0 <= y <= y1]) that
    [handle_touch] tests, collected per screen. *)

Record rect : Type := mkRect { rx0 : Z; ry0 : Z; rx1 : Z; ry1 : Z }.

Definition contains (r : rect) (x y : Z) : bool :=
  (rx0 r <=? x) && (x <=? rx1 r) && (ry0 r <=? y) && (y <=? ry1 r).

Definition main_widgets : list rect :=
  [ mkRect 10 20 100 100; mkRect 110 20 200 100; mkRect 210 20 300 100;
    mkRect 10 110 100 190; mkRect 110 110 300 190 ].

Definition button_minus10 : rect := mkRect 20 50 80 90.
Definition button_plus10 : rect := mkRect 240 50 300 90.
Definition button_minus5 : rect := mkRect 50 100 100 130.
Definition button_plus5 : rect := mkRect 220 100 270 130.

Definition preset_button (i : Z) : rect :=
  mkRect (20 + i * 70) 140 (20 + i * 70 + 60) 165.

Definition settings_buttons : list rect :=
  [ button_minus10; button_plus10; button_minus5; button_plus5;
    preset_button 0; preset_button 1; preset_button 2; preset_button 3 ].

(** The bottom navigation bar: the lowest 40 rows, whatever [x] is. *)
Definition in_navigation_bar (self : SmartPlantDisplay) (y : Z) : bool :=
  y >=? height self - 40.

(** Whether [(x, y)] lies in a hit region of the screen shown: the
    navigation bar on every screen, the widgets of the main screen, the
    whole area above the bar on the detail screen, the buttons of the
    settings screen. *)
Definition in_hit_region (self : SmartPlantDisplay) (x y : Z) : bool :=
  in_navigation_bar self y ||
  (if current_screen self =? 0 then existsb (fun r => contains r x y) main_widgets
   else if current_screen self =? 1 then true
   else if current_screen self =? 2
   then existsb (fun r => contains r x y) settings_buttons
   else false).

(** *** The digitizer poll in the words of the specification

    Stated from the specification, to be compared with [get_touch]: take the
    sample pairs, drop every pair with a value outside the open band
    (100, 4000), give up if none is left, otherwise take the integer mean of
    each axis and calibrate it. *)

Definition in_band (raw : Z) : bool := (100 <? raw) && (raw <? 4000).

Definition surviving (pairs : list (Z * Z)) : list (Z * Z) :=
  filter (fun p => in_band (fst p) && in_band (snd p)) pairs.

Definition integer_mean (values : list Z) : Z :=
  fold_right Z.add 0 values / Z.of_nat (length values).

Definition poll_spec (self : TouchController) (pairs : list (Z * Z))
  : option (Z * Z) :=
  match surviving pairs with
  | [] => None
  | kept =>
      Some (calibrate self (integer_mean (map fst kept))
                           (integer_mean (map snd kept)))
  end.

Local Open Scope io_scope.

(** [n] sample pairs read off the bus, X before Y. *)
Fixpoint read_pairs (n : nat) : io (list (Z * Z)) :=
  match n with
  | O => ret []
  | S n' =>
      x_raw <- read_touch_raw TOUCH_CMD_X ;;
      y_raw <- read_touch_raw TOUCH_CMD_Y ;;
      rest <- read_pairs n' ;;
      ret ((x_raw, y_raw) :: rest)
  end.

Local Close Scope io_scope.

(** The bus operations of one [read_touch_raw cmd]. *)
Definition transaction (cmd : Z) : list bus_op :=
  [CsOff; DelayMs 1; SpiWrite [cmd]; DelayMs 1; SpiRead 2; DelayMs 1; CsOn].

(** *** Field-wise check of the 5-6-5 packing

    Whether three fields of 5, 6 and 5 bits, OR-ed together at bit offsets
    11, 5 and 0, give a 16-bit value from which each field reads back. *)
Definition fields_ok (i j k : Z) : bool :=
  let c := Z.lor (Z.lor (2048 * i) (32 * j)) k in
  (0 <=? c) && (c <? 65536) && (Z.shiftr c 11 =? i)
  && (Z.land (Z.shiftr c 5) 63 =? j) && (Z.land c 31 =? k).

(** *** The health rule in the words of the specification

    Stated from the specification, to be compared with [health_score]:
    start at 100 and take a fixed number of points off for every condition
    that is out of range. *)

Definition within (lo hi v : Q) : bool := Qle_bool lo v && Qle_bool v hi.

Definition deduction (applies : bool) (points : Z) : Z :=
  if applies then points else 0.

Definition health_rule (temperature : Q) (light_value : Z) (humidity : Q)
  : Z :=
  100 - deduction (negb (within 18 28 temperature)) 15
      - deduction (light_value <? 300) 20
      - deduction (negb (within 40 80 humidity)) 15.

(** *** Polls by motion input *)

(** A poll [(current_time, motion_state)] that saw no motion, and one that
    saw motion. *)
Definition quiet (poll : Z * Z) : Prop := snd poll = 0.
Definition moving (poll : Z * Z) : Prop := snd poll = 1.

(** ** Further routines of the display driver and the renderer *)

Definition fill (self : SmartPlantDisplay) (color : Z) : list bus_op :=
  fill_rect self 0 0 (width self) (height self) color.

Definition hline (self : SmartPlantDisplay) (x y w color : Z) : list bus_op :=
  fill_rect self x y w 1 color.

Definition vline (self : SmartPlantDisplay) (x y h color : Z) : list bus_op :=
  fill_rect self x y 1 h color.

(** The 16-bit words of pixel data in a trace: the two-byte writes (a
    command is one byte, a window payload four). *)
Definition is_pixel_word (op : bus_op) : bool :=
  match op with
  | SpiWrite [_; _] => true
  | _ => false
  end.

Definition pixel_words (trace : list bus_op) : nat :=
  length (filter is_pixel_word trace).

(** Chip-select discipline of a trace: select and release alternate,
    starting from released; bytes move only while selected; the trace ends
    released. *)
Fixpoint framed_from (selected : bool) (trace : list bus_op) : bool :=
  match trace with
  | [] => negb selected
  | CsOff :: rest => negb selected && framed_from true rest
  | CsOn :: rest => selected && framed_from false rest
  | SpiWrite _ :: rest => selected && framed_from selected rest
  | SpiRead _ :: rest => selected && framed_from selected rest
  | _ :: rest => framed_from selected rest
  end.

Definition framed (trace : list bus_op) : bool := framed_from false trace.

(** [range(start, stop)]. *)
Definition range_from (start stop : Z) : list Z :=
  map (fun k => start + k) (range (stop - start)).

(** The renderer only reaches the bus through [fill_rect] and [pixel]; a
    drawing routine is the list of those calls, performed in order. *)
Inductive draw_call : Type :=
| CallFillRect (x y w h color : Z)
| CallPixel (x y color : Z).

Definition perform (self : SmartPlantDisplay) (call : draw_call)
  : list bus_op :=
  match call with
  | CallFillRect x y w h color => fill_rect self x y w h color
  | CallPixel x y color => pixel self x y color
  end.

Definition render (self : SmartPlantDisplay) (calls : list draw_call)
  : list bus_op :=
  flat_map (perform self) calls.

(** [draw_rounded_rect]: the calls it makes. *)
Definition draw_rounded_rect_calls (x y w h radius color : Z)
  : list draw_call :=
  [ CallFillRect (x + radius) y (w - 2 * radius) h color;
    CallFillRect x (y + radius) radius (h - 2 * radius) color;
    CallFillRect (x + w - radius) (y + radius) radius (h - 2 * radius) color ]
  ++ flat_map (fun i =>
       flat_map (fun j =>
         if i * i + j * j <=? radius * radius then
           [ CallPixel (x + radius - i) (y + radius - j) color;
             CallPixel (x + w - radius + i) (y + radius - j) color;
             CallPixel (x + radius - i) (y + h - radius + j) color;
             CallPixel (x + w - radius + i) (y + h - radius + j) color ]
         else [])
       (range radius))
     (range radius).

Definition draw_rounded_rect (self : SmartPlantDisplay)
  (x y w h radius color : Z) : list bus_op :=
  render self (draw_rounded_rect_calls x y w h radius color).

(** [draw_circle]: the calls it makes. *)
Definition draw_circle_calls (cx cy radius color : Z) : list draw_call :=
  flat_map (fun x =>
    flat_map (fun y =>
      if x * x + y * y <=? radius * radius
      then [CallPixel (cx + x) (cy + y) color]
      else [])
    (range_from (- radius) (radius + 1)))
  (range_from (- radius) (radius + 1)).

Definition draw_circle (self : SmartPlantDisplay) (cx cy radius color : Z)
  : list bus_op :=
  render self (draw_circle_calls cx cy radius color).

(** The seven-segment table of [draw_digit]. *)
Definition segments : list (list Z) :=
  [ [1;1;1;1;1;1;0];
    [0;1;1;0;0;0;0];
    [1;1;0;1;1;0;1];
    [1;1;1;1;0;0;1];
    [0;1;1;0;0;1;1];
    [1;0;1;1;0;1;1];
    [1;0;1;1;1;1;1];
    [1;1;1;0;0;0;0];
    [1;1;1;1;1;1;1];
    [1;1;1;1;0;1;1] ].

(** [if seg[k]: fill_rect(...)]. *)
Definition when_lit (seg : list Z) (k : nat) (call : draw_call)
  : list draw_call :=
  if nth k seg 0 =? 0 then [] else [call].

(** [draw_digit]: the calls it makes. *)
Definition draw_digit_calls (x y digit size color : Z) : list draw_call :=
  if (0 <=? digit) && (digit <=? 9) then
    let seg := nth (Z.to_nat digit) segments [] in
    let w := size * 6 in
    let h := size * 10 in
    when_lit seg 0 (CallFillRect (x + size) y (w - 2 * size) size color)
    ++ when_lit seg 1
         (CallFillRect (x + w - size) (y + size) size (h / 2 - size) color)
    ++ when_lit seg 2
         (CallFillRect (x + w - size) (y + h / 2) size (h / 2 - size) color)
    ++ when_lit seg 3
         (CallFillRect (x + size) (y + h - size) (w - 2 * size) size color)
    ++ when_lit seg 4
         (CallFillRect x (y + h / 2) size (h / 2 - size) color)
    ++ when_lit seg 5
         (CallFillRect x (y + size) size (h / 2 - size) color)
    ++ when_lit seg 6
         (CallFillRect (x + size) (y + h / 2 - size / 2) (w - 2 * size) size
            color)
  else [].

Definition draw_digit (self : SmartPlantDisplay) (x y digit size color : Z)
  : list bus_op :=
  render self (draw_digit_calls x y digit size color).







(** Where a call paints, for a call that paints at all: the half-open box
    [bx <= . < bx + bw], [by <= . < by + bh] holds a pixel, or a rectangle
    with positive sides. *)
Definition call_in_box (bx by_ bw bh : Z) (call : draw_call) : Prop :=
  match call with
  | CallPixel x y _ => bx <= x < bx + bw /\ by_ <= y < by_ + bh
  | CallFillRect x y w h _ =>
      0 < w /\ 0 < h /\ bx <= x /\ x + w <= bx + bw
      /\ by_ <= y /\ y + h <= by_ + bh
  end.

(** ** Text *)

(** [str.upper()] as MicroPython has it: only the letters a to z change. *)
Definition upper_char (c : ascii) : ascii :=
  let n := nat_of_ascii c in
  if ((97 <=? n) && (n <=? 122))%nat then ascii_of_nat (n - 32) else c.

Definition upper (text : list ascii) : list ascii := map upper_char text.

(** The glyph table of [draw_simple_text] (the definition at line 1026,
    which replaces the one at line 817 of the same class). *)
Definition font : list (ascii * list (list Z)) :=
  [
    ("A"%char,
     [[0;1;1;1;0]; [1;0;0;0;1]; [1;0;0;0;1]; [1;1;1;1;1];
      [1;0;0;0;1]; [1;0;0;0;1]; [0;0;0;0;0]]);
    ("B"%char,
     [[1;1;1;1;0]; [1;0;0;0;1]; [1;1;1;1;0]; [1;0;0;0;1];
      [1;0;0;0;1]; [1;1;1;1;0]; [0;0;0;0;0]]);
    ("C"%char,
     [[0;1;1;1;0]; [1;0;0;0;1]; [1;0;0;0;0]; [1;0;0;0;0];
      [1;0;0;0;1]; [0;1;1;1;0]; [0;0;0;0;0]]);
    ("D"%char,
     [[1;1;1;1;0]; [1;0;0;0;1]; [1;0;0;0;1]; [1;0;0;0;1];
      [1;0;0;0;1]; [1;1;1;1;0]; [0;0;0;0;0]]);
    ("E"%char,
     [[1;1;1;1;1]; [1;0;0;0;0]; [1;1;1;1;0]; [1;0;0;0;0];
      [1;0;0;0;0]; [1;1;1;1;1]; [0;0;0;0;0]]);
    ("F"%char,
     [[1;1;1;1;1]; [1;0;0;0;0]; [1;1;1;1;0]; [1;0;0;0;0];
      [1;0;0;0;0]; [1;0;0;0;0]; [0;0;0;0;0]]);
    ("G"%char,
     [[0;1;1;1;0]; [1;0;0;0;1]; [1;0;0;0;0]; [1;0;1;1;1];
      [1;0;0;0;1]; [0;1;1;1;0]; [0;0;0;0;0]]);
    ("H"%char,
     [[1;0;0;0;1]; [1;0;0;0;1]; [1;1;1;1;1]; [1;0;0;0;1];
      [1;0;0;0;1]; [1;0;0;0;1]; [0;0;0;0;0]]);
    ("I"%char,
     [[0;1;1;1;0]; [0;0;1;0;0]; [0;0;1;0;0]; [0;0;1;0;0];
      [0;0;1;0;0]; [0;1;1;1;0]; [0;0;0;0;0]]);
    ("L"%char,
     [[1;0;0;0;0]; [1;0;0;0;0]; [1;0;0;0;0]; [1;0;0;0;0];
      [1;0;0;0;0]; [1;1;1;1;1]; [0;0;0;0;0]]);
    ("M"%char,
     [[1;0;0;0;1]; [1;1;0;1;1]; [1;0;1;0;1]; [1;0;0;0;1];
      [1;0;0;0;1]; [1;0;0;0;1]; [0;0;0;0;0]]);
    ("N"%char,
     [[1;0;0;0;1]; [1;1;0;0;1]; [1;0;1;0;1]; [1;0;0;1;1];
      [1;0;0;0;1]; [1;0;0;0;1]; [0;0;0;0;0]]);
    ("O"%char,
     [[0;1;1;1;0]; [1;0;0;0;1]; [1;0;0;0;1]; [1;0;0;0;1];
      [1;0;0;0;1]; [0;1;1;1;0]; [0;0;0;0;0]]);
    ("P"%char,
     [[1;1;1;1;0]; [1;0;0;0;1]; [1;1;1;1;0]; [1;0;0;0;0];
      [1;0;0;0;0]; [1;0;0;0;0]; [0;0;0;0;0]]);
    ("R"%char,
     [[1;1;1;1;0]; [1;0;0;0;1]; [1;1;1;1;0]; [1;0;1;0;0];
      [1;0;0;1;0]; [1;0;0;0;1]; [0;0;0;0;0]]);
    ("S"%char,
     [[0;1;1;1;1]; [1;0;0;0;0]; [0;1;1;1;0]; [0;0;0;0;1];
      [0;0;0;0;1]; [1;1;1;1;0]; [0;0;0;0;0]]);
    ("T"%char,
     [[1;1;1;1;1]; [0;0;1;0;0]; [0;0;1;0;0]; [0;0;1;0;0];
      [0;0;1;0;0]; [0;0;1;0;0]; [0;0;0;0;0]]);
    ("U"%char,
     [[1;0;0;0;1]; [1;0;0;0;1]; [1;0;0;0;1]; [1;0;0;0;1];
      [1;0;0;0;1]; [0;1;1;1;0]; [0;0;0;0;0]]);
    ("V"%char,
     [[1;0;0;0;1]; [1;0;0;0;1]; [1;0;0;0;1]; [1;0;0;0;1];
      [0;1;0;1;0]; [0;0;1;0;0]; [0;0;0;0;0]]);
    ("0"%char,
     [[0;1;1;1;0]; [1;0;0;0;1]; [1;0;0;0;1]; [1;0;0;0;1];
      [1;0;0;0;1]; [0;1;1;1;0]; [0;0;0;0;0]]);
    ("1"%char,
     [[0;0;1;0;0]; [0;1;1;0;0]; [0;0;1;0;0]; [0;0;1;0;0];
      [0;0;1;0;0]; [0;1;1;1;0]; [0;0;0;0;0]]);
    ("2"%char,
     [[0;1;1;1;0]; [1;0;0;0;1]; [0;0;0;1;0]; [0;0;1;0;0];
      [0;1;0;0;0]; [1;1;1;1;1]; [0;0;0;0;0]]);
    ("3"%char,
     [[1;1;1;1;0]; [0;0;0;0;1]; [0;1;1;1;0]; [0;0;0;0;1];
      [0;0;0;0;1]; [1;1;1;1;0]; [0;0;0;0;0]]);
    ("4"%char,
     [[1;0;0;1;0]; [1;0;0;1;0]; [1;0;0;1;0]; [1;1;1;1;1];
      [0;0;0;1;0]; [0;0;0;1;0]; [0;0;0;0;0]]);
    ("5"%char,
     [[1;1;1;1;1]; [1;0;0;0;0]; [1;1;1;1;0]; [0;0;0;0;1];
      [0;0;0;0;1]; [1;1;1;1;0]; [0;0;0;0;0]]);
    ("+"%char,
     [[0;0;0;0;0]; [0;0;1;0;0]; [0;1;1;1;0]; [0;0;1;0;0];
      [0;0;0;0;0]; [0;0;0;0;0]; [0;0;0;0;0]]);
    ("-"%char,
     [[0;0;0;0;0]; [0;0;0;0;0]; [0;1;1;1;0]; [0;0;0;0;0];
      [0;0;0;0;0]; [0;0;0;0;0]; [0;0;0;0;0]]);
    ("s"%char,
     [[0;0;0;0;0]; [0;1;1;1;0]; [1;0;0;0;0]; [0;1;1;0;0];
      [0;0;0;1;0]; [1;1;1;0;0]; [0;0;0;0;0]]);
    ("m"%char,
     [[0;0;0;0;0]; [1;1;0;1;0]; [1;0;1;0;1]; [1;0;1;0;1];
      [1;0;1;0;1]; [1;0;1;0;1]; [0;0;0;0;0]]);
    (" "%char,
     [[0;0;0;0;0]; [0;0;0;0;0]; [0;0;0;0;0]; [0;0;0;0;0];
      [0;0;0;0;0]; [0;0;0;0;0]; [0;0;0;0;0]]);
    (":"%char,
     [[0;0;0;0;0]; [0;0;1;0;0]; [0;0;0;0;0]; [0;0;1;0;0];
      [0;0;0;0;0]; [0;0;0;0;0]; [0;0;0;0;0]])
  ].

(** [font[char]] when [char in font]. *)
Fixpoint font_lookup (table : list (ascii * list (list Z))) (char : ascii)
  : option (list (list Z)) :=
  match table with
  | [] => None
  | (key, pattern) :: rest =>
      if Ascii.eqb key char then Some pattern else font_lookup rest char
  end.

(** The pixel calls for one glyph: a 2x2 block for every lit entry. *)
Definition glyph_calls (char_x y : Z) (char_pattern : list (list Z))
  (color : Z) : list draw_call :=
  flat_map (fun '(row_idx, row) =>
    flat_map (fun '(col_idx, pixel) =>
      if pixel =? 0 then []
      else
        flat_map (fun dx =>
          flat_map (fun dy =>
            [CallPixel (char_x + col_idx * 2 + dx) (y + row_idx * 2 + dy)
               color])
          (range 2))
        (range 2))
    (enumerate row))
  (enumerate char_pattern).

(** The loop of [draw_simple_text] over the upper-cased text. *)
Fixpoint draw_simple_text_loop (chars : list ascii) (char_x y color : Z)
  : list draw_call :=
  match chars with
  | [] => []
  | char :: rest =>
      match font_lookup font char with
      | Some char_pattern =>
          glyph_calls char_x y char_pattern color
          ++ draw_simple_text_loop rest (char_x + 12) y color
      | None => draw_simple_text_loop rest (char_x + 12) y color
      end
  end.

(** [draw_simple_text]: the calls it makes. *)
Definition draw_simple_text_calls (x y : Z) (text : list ascii) (color : Z)
  : list draw_call :=
  draw_simple_text_loop (upper text) x y color.

Definition draw_simple_text (self : SmartPlantDisplay) (x y : Z)
  (text : list ascii) (color : Z) : list bus_op :=
  render self (draw_simple_text_calls x y text color).

(** Whether a glyph has at most 7 rows of at most 5 entries. *)
Definition glyph_fits (pattern : list (list Z)) : bool :=
  (length pattern <=? 7)%nat
  && forallb (fun row => (length row <=? 5)%nat) pattern.

(** ** Light quality *)





(** * Properties *)

(** ** Helpers: exhaustive checks over [range] *)

Lemma range_In (n z : Z) : 0 <= z < n -> In z (range n).
Proof.
  intros Hz. unfold range. apply in_map_iff.
  exists (Z.to_nat z). split; [lia|].
  apply in_seq. lia.
Qed.

Lemma range_forallb (P : Z -> bool) (n : Z) :
  forallb P (range n) = true -> forall z, 0 <= z < n -> P z = true.
Proof.
  intros Hall z Hz. rewrite forallb_forall in Hall.
  apply Hall, range_In, Hz.
Qed.

(** ** The tick counter *)

(** Within half a period (about 6.2 days), [ticks_diff] is the plain
    difference of the two readings of a clock that has not wrapped. *)
Lemma ticks_diff_elapsed (t1 t0 : Z) :
  - (TICKS_PERIOD / 2) <= t1 - t0 < TICKS_PERIOD / 2 ->
  ticks_diff t1 t0 = t1 - t0.
Proof.
  unfold ticks_diff, TICKS_PERIOD. intros Hnear.
  change (2 ^ 30) with 1073741824 in *.
  change (1073741824 / 2) with 536870912 in *.
  rewrite Z.mod_small by lia. lia.
Qed.

(** It also is when the counter has wrapped once between the readings. *)
Lemma ticks_diff_wrapped (t1 t0 : Z) :
  0 <= t1 - t0 + TICKS_PERIOD < TICKS_PERIOD / 2 ->
  ticks_diff t1 t0 = t1 - t0 + TICKS_PERIOD.
Proof.
  unfold ticks_diff, TICKS_PERIOD. intros Hnear.
  change (2 ^ 30) with 1073741824 in *.
  change (1073741824 / 2) with 536870912 in *.
  replace (t1 - t0 + 536870912)
    with (t1 - t0 + 1073741824 + 536870912 + (-1) * 1073741824) by lia.
  rewrite Z.mod_add by lia. rewrite Z.mod_small by lia. lia.
Qed.

(** ** [color565] *)

Lemma red_field (r : Z) :
  0 <= r < 256 -> Z.shiftl (Z.land r 0xf8) 8 = 2048 * Z.shiftr r 3.
Proof.
  intros Hr. apply Z.eqb_eq.
  apply (range_forallb
           (fun r => Z.shiftl (Z.land r 0xf8) 8 =? 2048 * Z.shiftr r 3) 256);
    [vm_compute; reflexivity | exact Hr].
Qed.

Lemma green_field (g : Z) :
  0 <= g < 256 -> Z.shiftl (Z.land g 0xfc) 3 = 32 * Z.shiftr g 2.
Proof.
  intros Hg. apply Z.eqb_eq.
  apply (range_forallb
           (fun g => Z.shiftl (Z.land g 0xfc) 3 =? 32 * Z.shiftr g 2) 256);
    [vm_compute; reflexivity | exact Hg].
Qed.

Lemma shiftr_bound (v k : Z) :
  0 <= k -> 0 <= v < 256 -> 0 <= Z.shiftr v k < 2 ^ (8 - k) \/ 8 < k.
Proof.
  intros Hk Hv. destruct (Z_le_gt_dec k 8) as [Hle|Hgt]; [left|right; lia].
  rewrite Z.shiftr_div_pow2 by lia. split.
  - apply Z.div_pos; [lia | apply Z.pow_pos_nonneg; lia].
  - apply Z.div_lt_upper_bound; [apply Z.pow_pos_nonneg; lia|].
    rewrite <- Z.pow_add_r by lia.
    replace (k + (8 - k)) with 8 by lia. simpl. lia.
Qed.

(** All 65536 field values pass the check. *)
Lemma fields_ok_all (i j k : Z) :
  0 <= i < 32 -> 0 <= j < 64 -> 0 <= k < 32 -> fields_ok i j k = true.
Proof.
  intros Hi Hj Hk.
  assert (Hall : forallb (fun i => forallb (fun j => forallb (fields_ok i j)
                   (range 32)) (range 64)) (range 32) = true)
    by (vm_compute; reflexivity).
  pose proof (range_forallb _ _ Hall i Hi) as H1. cbv beta in H1.
  pose proof (range_forallb _ _ H1 j Hj) as H2. cbv beta in H2.
  exact (range_forallb _ _ H2 k Hk).
Qed.

(** C9. [color565] keeps the top 5 bits of red, the top 6 bits of green and
    the top 5 bits of blue of 8-bit channels and packs them as a 16-bit
    5-6-5 value: red in bits 15..11, green in bits 10..5, blue in bits 4..0.
    The tuple form packs the same value.  Pure red, green, blue and white
    give 0xF800, 0x07E0, 0x001F and 0xFFFF. *)
Theorem color565_packs_top_bits (r g b : Z) :
  0 <= r < 256 -> 0 <= g < 256 -> 0 <= b < 256 ->
  let c := color565 (Channel r) g b in
  0 <= c < 65536
  /\ Z.shiftr c 11 = Z.shiftr r 3
  /\ Z.land (Z.shiftr c 5) 63 = Z.shiftr g 2
  /\ Z.land c 31 = Z.shiftr b 3
  /\ color565 (Triple r g b) 0 0 = c
  /\ color565 (Channel 255) 0 0 = 0xF800
  /\ color565 (Channel 0) 255 0 = 0x07E0
  /\ color565 (Channel 0) 0 255 = 0x001F
  /\ color565 (Channel 255) 255 255 = 0xFFFF.
Proof.
  intros Hr Hg Hb c.
  assert (Hc : c = Z.lor (Z.lor (2048 * Z.shiftr r 3) (32 * Z.shiftr g 2))
                         (Z.shiftr b 3)).
  { unfold c, color565, color565_packed.
    rewrite (red_field r Hr), (green_field g Hg). reflexivity. }
  assert (Hi : 0 <= Z.shiftr r 3 < 32)
    by (destruct (shiftr_bound r 3 ltac:(lia) Hr) as [H|H]; [exact H | lia]).
  assert (Hj : 0 <= Z.shiftr g 2 < 64)
    by (destruct (shiftr_bound g 2 ltac:(lia) Hg) as [H|H]; [exact H | lia]).
  assert (Hk : 0 <= Z.shiftr b 3 < 32)
    by (destruct (shiftr_bound b 3 ltac:(lia) Hb) as [H|H]; [exact H | lia]).
  pose proof (fields_ok_all _ _ _ Hi Hj Hk) as Hok.
  unfold fields_ok in Hok. cbv zeta in Hok. rewrite <- Hc in Hok.
  repeat rewrite andb_true_iff in Hok.
  destruct Hok as [[[[H0 H1] H2] H3] H4].
  apply Z.leb_le in H0. apply Z.ltb_lt in H1.
  apply Z.eqb_eq in H2, H3, H4.
  repeat split; try assumption; reflexivity.
Qed.

Lemma color565_packs_top_bits_witness :
  let c := color565 (Channel 200) 100 50 in
  0 <= c < 65536
  /\ Z.shiftr c 11 = Z.shiftr 200 3
  /\ Z.land (Z.shiftr c 5) 63 = Z.shiftr 100 2
  /\ Z.land c 31 = Z.shiftr 50 3
  /\ color565 (Triple 200 100 50) 0 0 = c
  /\ color565 (Channel 255) 0 0 = 0xF800
  /\ color565 (Channel 0) 255 0 = 0x07E0
  /\ color565 (Channel 0) 0 255 = 0x001F
  /\ color565 (Channel 255) 255 255 = 0xFFFF.
Proof.
  apply (color565_packs_top_bits 200 100 50); lia.
Defined.

(** ** Plant health *)

Lemma health_score_is_rule (t : Q) (l : Z) (h : Q) :
  health_score t l h = health_rule t l h /\ 0 <= health_score t l h <= 100.
Proof.
  unfold health_score, health_rule, deduction, within, Qltb, Qgtb.
  destruct (Qle_bool 18 t), (Qle_bool t 28), (l <? 300),
           (Qle_bool 40 h), (Qle_bool h 80); cbn; lia.
Qed.

Lemma update_sensor_data_returns (light_value raw : Z) (t h : Q)
  (now motion : Z) (self : SmartPlantDisplay) :
  exists self' calls,
    update_sensor_data light_value raw (Some (t, h)) now motion self
    = Returned self' calls
    /\ plant_health (sensor_data self')
       = health_score (temperature (sensor_data self')) light_value
                      (humidity (sensor_data self'))
    /\ light (sensor_data self') = light_value.
Proof.
  unfold update_sensor_data.
  destruct (read_motion_sensor now motion self) as [[res s1] calls].
  destruct (Z.abs (light_value - last_light_value s1) >? 5);
    repeat match goal with
           | |- context [if ?c then _ else _] => destruct c
           end;
    eexists; eexists; (split; [reflexivity|]); cbn; split; reflexivity.
Qed.

(** C5. The score [update_sensor_data] stores starts at 100, loses 15 when
    the temperature is outside [18, 28], 20 when the light value is below
    300 and 15 when the humidity is outside [40, 80], and lies in [0, 100].
    With temperature 22, light 750 and humidity 65 it is 100; with
    temperature 30 instead it is 85, both for the bare rule and for an
    update of the freshly constructed object with those readings. *)
Theorem plant_health_score (light_value raw : Z) (t h : Q) (now motion : Z)
  (self : SmartPlantDisplay) :
  (exists self' calls,
      update_sensor_data light_value raw (Some (t, h)) now motion self
      = Returned self' calls
      /\ plant_health (sensor_data self')
         = health_rule (temperature (sensor_data self')) light_value
                       (humidity (sensor_data self'))
      /\ 0 <= plant_health (sensor_data self') <= 100)
  /\ health_score 22 750 65 = 100
  /\ health_score 30 750 65 = 85
  /\ (exists self' calls,
         update_sensor_data 750 49151 (Some (22%Q, 65%Q)) 6000 0
           (SmartPlantDisplay_init true 0) = Returned self' calls
         /\ plant_health (sensor_data self') = 100)
  /\ (exists self' calls,
         update_sensor_data 750 49151 (Some (30%Q, 65%Q)) 6000 0
           (SmartPlantDisplay_init true 0) = Returned self' calls
         /\ plant_health (sensor_data self') = 85).
Proof.
  split; [|split; [|split; [|split]]].
  - destruct (update_sensor_data_returns light_value raw t h now motion self)
      as (self' & calls & Hrun & Hscore & _).
    exists self', calls. split; [exact Hrun|].
    rewrite Hscore.
    exact (health_score_is_rule _ _ _).
  - reflexivity.
  - reflexivity.
  - eexists; eexists; split; reflexivity.
  - eexists; eexists; split; reflexivity.
Qed.

(** ** Display windows *)

(** For a rectangle whose origin is on the screen and whose sides are
    positive, [fill_rect] programs a window inside the screen. *)
Lemma fill_rect_window_on_screen (self : SmartPlantDisplay) (x y w h : Z) :
  0 <= x < width self -> 0 <= y < height self -> 0 < w -> 0 < h ->
  let '(x0, y0, x1, y1) := fill_rect_window self x y w h in
  0 <= x0 <= x1 /\ x1 < width self /\ 0 <= y0 <= y1 /\ y1 < height self.
Proof.
  intros Hx Hy Hw Hh. unfold fill_rect_window, fill_rect_clip.
  destruct (Z.gtb_spec (x + w) (width self)),
           (Z.gtb_spec (y + h) (height self)); lia.
Qed.

(** C1. [fill_rect] only clips at the right and bottom edges.  For the
    rectangle (-5, 0, 10, 10) on the 320x240 screen it calls [set_window]
    with column bounds -5 and 4; the CASET payload carries 65531 as the
    start column, which is not a column of the screen.  The sibling
    [pixel] refuses the same origin and issues nothing. *)
Theorem fill_rect_sends_off_screen_column :
  let self := SmartPlantDisplay_init true 0 in
  fill_rect_window self (-5) 0 10 10 = (-5, 0, 4, 9)
  /\ window_coordinates (fill_rect self (-5) 0 10 10 0xF800)
     = [65531; 4; 0; 9]
  /\ ~ (0 <= 65531 < width self)
  /\ pixel self (-5) 0 0xF800 = [].
Proof.
  cbv zeta. split; [reflexivity|]. split; [vm_compute; reflexivity|].
  split; [cbn; lia | reflexivity].
Qed.

(** ** Automatic-mode timeout *)

Lemma check_auto_mode_timeout_early (t : Z) (self : SmartPlantDisplay) :
  ticks_diff t (last_touch_time self) <= 60000 ->
  check_auto_mode_timeout t self = self.
Proof.
  intros Hearly. unfold check_auto_mode_timeout.
  destruct (manual_mode self); [|reflexivity].
  destruct (Z.gtb_spec (ticks_diff t (last_touch_time self)) 60000);
    [lia | reflexivity].
Qed.

Lemma check_timeouts_early (times : list Z) (self : SmartPlantDisplay) :
  Forall (fun t => ticks_diff t (last_touch_time self) <= 60000) times ->
  check_timeouts times self = self /\ auto_mode_transitions times self = O.
Proof.
  induction 1 as [|t times Ht _ IH]; [split; reflexivity|].
  cbn [check_timeouts auto_mode_transitions].
  rewrite (check_auto_mode_timeout_early t self Ht).
  destruct IH as [IH1 IH2]. rewrite IH1, IH2.
  destruct (manual_mode self); split; reflexivity.
Qed.

Lemma check_timeouts_automatic (times : list Z) (self : SmartPlantDisplay) :
  manual_mode self = false ->
  check_timeouts times self = self /\ auto_mode_transitions times self = O.
Proof.
  intros Hauto. induction times as [|t times IH]; [split; reflexivity|].
  cbn [check_timeouts auto_mode_transitions].
  assert (Hstep : check_auto_mode_timeout t self = self)
    by (unfold check_auto_mode_timeout; rewrite Hauto; reflexivity).
  rewrite Hstep, Hauto. exact IH.
Qed.

Lemma check_timeouts_app (xs ys : list Z) (self : SmartPlantDisplay) :
  check_timeouts (xs ++ ys) self = check_timeouts ys (check_timeouts xs self).
Proof.
  revert self. induction xs as [|t xs IH]; intros self; [reflexivity|].
  cbn [app check_timeouts]. apply IH.
Qed.

Lemma auto_mode_transitions_app (xs ys : list Z) (self : SmartPlantDisplay) :
  auto_mode_transitions (xs ++ ys) self
  = (auto_mode_transitions xs self
     + auto_mode_transitions ys (check_timeouts xs self))%nat.
Proof.
  revert self. induction xs as [|t xs IH]; intros self; [reflexivity|].
  cbn [app check_timeouts auto_mode_transitions]. rewrite IH. lia.
Qed.

(** The preset loop touches only the timeout fields and the redraw flag. *)
Lemma apply_presets_frame (ps : list (Z * Z)) (x : Z)
  (self : SmartPlantDisplay) :
  manual_mode (apply_presets ps x self) = manual_mode self
  /\ last_touch_time (apply_presets ps x self) = last_touch_time self
  /\ current_screen (apply_presets ps x self) = current_screen self
  /\ width (apply_presets ps x self) = width self
  /\ height (apply_presets ps x self) = height self.
Proof.
  induction ps as [|[i preset] ps IH]; cbn [apply_presets];
    [repeat split; reflexivity|].
  destruct ((20 + i * 70 <=? x) && (x <=? 20 + i * 70 + 60));
    [repeat split; reflexivity | exact IH].
Qed.

(** The hit tests leave the mode, the touch clock and the geometry alone. *)
Lemma touch_dispatch_frame (x y : Z) (self : SmartPlantDisplay) :
  manual_mode (touch_dispatch x y self) = manual_mode self
  /\ last_touch_time (touch_dispatch x y self) = last_touch_time self
  /\ width (touch_dispatch x y self) = width self
  /\ height (touch_dispatch x y self) = height self.
Proof.
  unfold touch_dispatch. cbv zeta.
  destruct (apply_presets_frame (enumerate presets) x self)
    as (Hm & Ht & _ & Hw & Hh).
  repeat match goal with
         | |- context [if ?c then _ else _] => destruct c
         end;
    try (rewrite Hm, Ht, Hw, Hh); repeat split; reflexivity.
Qed.

(** The closing redraw test of [handle_touch] changes nothing but the
    redraw flag. *)
Lemma handle_touch_dispatch (t x y : Z) (self : SmartPlantDisplay) :
  let routed :=
    touch_dispatch x y (set_last_touch_time t (set_manual_mode true self)) in
  current_screen (handle_touch t x y self) = current_screen routed
  /\ motion_timeout_seconds (handle_touch t x y self)
     = motion_timeout_seconds routed
  /\ motion_timeout (handle_touch t x y self) = motion_timeout routed
  /\ manual_mode (handle_touch t x y self) = manual_mode routed
  /\ last_touch_time (handle_touch t x y self) = last_touch_time routed
  /\ screen_needs_redraw (handle_touch t x y self)
     = negb (current_screen self =? current_screen routed)
       || screen_needs_redraw routed.
Proof.
  cbv zeta. unfold handle_touch. cbv zeta.
  destruct (current_screen self =? current_screen _);
    repeat split; reflexivity.
Qed.

Lemma handle_touch_manual (t x y : Z) (self : SmartPlantDisplay) :
  manual_mode (handle_touch t x y self) = true
  /\ last_touch_time (handle_touch t x y self) = t.
Proof.
  destruct (handle_touch_dispatch t x y self) as (_ & _ & _ & Hm & Ht & _).
  destruct (touch_dispatch_frame x y
              (set_last_touch_time t (set_manual_mode true self)))
    as (Hm' & Ht' & _).
  rewrite Hm, Ht, Hm', Ht'. split; reflexivity.
Qed.

(** C3. With [manual_mode] set and no touch in between, checks made while
    at most 60000 ms have elapsed since [last_touch_time] leave the object
    as it is; the first check made after more than 60000 ms clears
    [manual_mode]; whatever checks follow, [manual_mode] stays false and the
    switch from true to false has happened exactly once; a new touch sets
    [manual_mode] again. *)
Theorem auto_mode_timeout_once (self : SmartPlantDisplay)
  (before : list Z) (now : Z) (after : list Z) :
  manual_mode self = true ->
  Forall (fun t => ticks_diff t (last_touch_time self) <= 60000) before ->
  ticks_diff now (last_touch_time self) > 60000 ->
  (forall k, check_timeouts (firstn k before) self = self)
  /\ manual_mode (check_timeouts (before ++ [now]) self) = false
  /\ manual_mode (check_timeouts (before ++ now :: after) self) = false
  /\ auto_mode_transitions (before ++ now :: after) self = 1%nat
  /\ (forall t x y,
        manual_mode
          (handle_touch t x y (check_timeouts (before ++ now :: after) self))
        = true).
Proof.
  intros Hmanual Hearly Hlate.
  destruct (check_timeouts_early before self Hearly) as [Hsame Hnone].
  assert (Hstep : manual_mode (check_auto_mode_timeout now self) = false).
  { unfold check_auto_mode_timeout. rewrite Hmanual.
    destruct (Z.gtb_spec (ticks_diff now (last_touch_time self)) 60000);
      [reflexivity | lia]. }
  split; [|split; [|split; [|split]]].
  - intros k. apply check_timeouts_early.
    rewrite <- (firstn_skipn k before) in Hearly.
    apply Forall_app in Hearly. exact (proj1 Hearly).
  - rewrite check_timeouts_app, Hsame. exact Hstep.
  - rewrite check_timeouts_app, Hsame. cbn [check_timeouts].
    destruct (check_timeouts_automatic after _ Hstep) as [Hrest _].
    rewrite Hrest. exact Hstep.
  - rewrite auto_mode_transitions_app, Hnone, Hsame.
    cbn [auto_mode_transitions].
    destruct (check_timeouts_automatic after _ Hstep) as [_ Hrest].
    rewrite Hrest, Hmanual, Hstep. reflexivity.
  - intros t x y. apply handle_touch_manual.
Qed.

Lemma auto_mode_timeout_once_witness :
  let self := handle_touch 1000 5 5 (SmartPlantDisplay_init true 0) in
  (forall k, check_timeouts (firstn k [2000; 61000]) self = self)
  /\ manual_mode (check_timeouts ([2000; 61000] ++ [61001]) self) = false
  /\ manual_mode (check_timeouts ([2000; 61000] ++ 61001 :: [70000; 61500]) self)
     = false
  /\ auto_mode_transitions ([2000; 61000] ++ 61001 :: [70000; 61500]) self
     = 1%nat
  /\ (forall t x y,
        manual_mode
          (handle_touch t x y
             (check_timeouts ([2000; 61000] ++ 61001 :: [70000; 61500]) self))
        = true).
Proof.
  apply (auto_mode_timeout_once
           (handle_touch 1000 5 5 (SmartPlantDisplay_init true 0))
           [2000; 61000] 61001 [70000; 61500]).
  - reflexivity.
  - repeat constructor; vm_compute; discriminate.
  - vm_compute. reflexivity.
Defined.

(** ** Motion latch *)

Lemma punishments_app (xs ys : list audio_call) :
  punishments (xs ++ ys) = (punishments xs + punishments ys)%nat.
Proof. unfold punishments. rewrite filter_app, length_app. reflexivity. Qed.

Lemma rewards_app (xs ys : list audio_call) :
  rewards (xs ++ ys) = (rewards xs + rewards ys)%nat.
Proof. unfold rewards. rewrite filter_app, length_app. reflexivity. Qed.

Lemma poll_motion_app (xs ys : list (Z * Z)) (self : SmartPlantDisplay) :
  poll_motion (xs ++ ys) self
  = (fst (poll_motion ys (fst (poll_motion xs self))),
     snd (poll_motion xs self)
     ++ snd (poll_motion ys (fst (poll_motion xs self)))).
Proof.
  revert self. induction xs as [|[t m] xs IH]; intros self.
  - cbn. destruct (poll_motion ys self); reflexivity.
  - cbn [app poll_motion].
    destruct (read_motion_sensor t m self) as [[res s1] calls].
    rewrite IH.
    destruct (poll_motion xs s1) as [s2 calls2]. cbn [fst snd].
    rewrite app_assoc. reflexivity.
Qed.

Lemma poll_motion_cons (t m : Z) (rest : list (Z * Z))
  (self : SmartPlantDisplay) :
  poll_motion ((t, m) :: rest) self
  = (fst (poll_motion rest (snd (fst (read_motion_sensor t m self)))),
     snd (read_motion_sensor t m self)
     ++ snd (poll_motion rest (snd (fst (read_motion_sensor t m self))))).
Proof.
  cbn [poll_motion].
  destruct (read_motion_sensor t m self) as [[res s1] calls].
  cbn [fst snd]. destruct (poll_motion rest s1); reflexivity.
Qed.

(** One poll without motion: the motion clock and the timeout are left
    alone, the reward latch is re-armed, no reward is played, and a
    punishment is played exactly when the punishment latch goes from
    armed to fired. *)
Lemma read_motion_sensor_quiet (t : Z) (self : SmartPlantDisplay) :
  let r := read_motion_sensor t 0 self in
  fst (fst r) = false
  /\ last_motion_time (snd (fst r)) = last_motion_time self
  /\ motion_timeout (snd (fst r)) = motion_timeout self
  /\ reward_played (snd (fst r)) = false
  /\ rewards (snd r) = O
  /\ (punishments (snd r) + Nat.b2n (audio_played self))%nat
     = Nat.b2n (audio_played (snd (fst r))).
Proof.
  unfold read_motion_sensor. cbn [Z.eqb].
  repeat match goal with
         | |- context [if ?c then _ else _] => destruct c eqn:?
         end;
    cbn in *; repeat split; try reflexivity; try congruence.
  all: destruct (audio_played self); cbn in *; congruence.
Qed.

(** The same over a run of polls without motion. *)
Lemma poll_motion_quiet (polls : list (Z * Z)) (self : SmartPlantDisplay) :
  Forall quiet polls ->
  let r := poll_motion polls self in
  last_motion_time (fst r) = last_motion_time self
  /\ motion_timeout (fst r) = motion_timeout self
  /\ rewards (snd r) = O
  /\ (punishments (snd r) + Nat.b2n (audio_played self))%nat
     = Nat.b2n (audio_played (fst r)).
Proof.
  intros Hquiet. revert self.
  induction Hquiet as [|[t m] polls Hm _ IH]; intros self.
  - cbn. repeat split; lia.
  - unfold quiet in Hm. cbn in Hm. subst m. cbn [poll_motion].
    pose proof (read_motion_sensor_quiet t self) as Hstep.
    destruct (read_motion_sensor t 0 self) as [[res s1] calls].
    cbn [fst snd] in Hstep.
    destruct Hstep as (_ & Hlm & Hto & _ & Hrw & Hpu).
    specialize (IH s1).
    destruct (poll_motion polls s1) as [s2 calls2].
    cbn [fst snd] in IH |- *.
    destruct IH as (Hlm2 & Hto2 & Hrw2 & Hpu2).
    rewrite rewards_app, punishments_app.
    repeat split; try congruence; lia.
Qed.

(** A poll without motion that passes both the 5000 ms gate and the
    timeout test leaves the punishment latch fired. *)
Lemma read_motion_sensor_fires (t : Z) (self : SmartPlantDisplay) :
  ticks_diff t (last_motion_check self) > 5000 ->
  ticks_diff t (last_motion_time self) > motion_timeout self ->
  audio_played (snd (fst (read_motion_sensor t 0 self))) = true.
Proof.
  intros Hgate Hlate. unfold read_motion_sensor. cbn [Z.eqb].
  cbn [last_motion_check last_motion_time motion_timeout audio_played
       set_reward_played set_last_motion_check].
  destruct (Z.gtb_spec (ticks_diff t (last_motion_check self)) 5000);
    [|lia].
  destruct (Z.gtb_spec (ticks_diff t (last_motion_time self))
                       (motion_timeout self)); [|lia].
  destruct (audio_played self) eqn:Hplayed; cbn; [exact Hplayed | reflexivity].
Qed.

(** While motion is held, a fired reward latch stays fired and nothing is
    played. *)
Lemma poll_motion_held (polls : list (Z * Z)) (self : SmartPlantDisplay) :
  Forall moving polls -> reward_played self = true ->
  snd (poll_motion polls self) = [].
Proof.
  intros Hheld. revert self.
  induction Hheld as [|[t m] polls Hm _ IH]; intros self Hfired;
    [reflexivity|].
  unfold moving in Hm. cbn in Hm. subst m. cbn [poll_motion].
  unfold read_motion_sensor. cbn [Z.eqb Pos.eqb].
  cbn [reward_played set_audio_played set_last_motion_time].
  rewrite Hfired. cbn [negb].
  specialize (IH (set_audio_played false (set_last_motion_time t self)) Hfired).
  destruct (poll_motion polls _) as [s2 calls2]. cbn [snd] in IH |- *.
  exact IH.
Qed.

(** C2 as stated fails: with a 30000 ms timeout, a poll at 29000 ms passes
    the 5000 ms gate before the timeout has run out; the polls at 30500 and
    31000 ms see no motion for longer than the timeout but fall inside the
    gate, and at 32000 ms motion is back.  The timeout period 30500..31000
    has come and gone without any punishment. *)
Lemma punishment_period_without_cue :
  let self0 := SmartPlantDisplay_init true 0 in
  let self := fst (poll_motion [(29000, 0)] self0) in
  let period := [(30500, 0); (31000, 0)] in
  ~ (audio_played self = false ->
     Forall (fun p => snd p = 0
                      /\ ticks_diff (fst p) (last_motion_time self)
                         > motion_timeout self) period ->
     punishments (snd (poll_motion period self)) = 1%nat)
  /\ punishments
       (snd (poll_motion ((29000, 0) :: period ++ [(32000, 1)]) self0)) = O.
Proof.
  cbv zeta. split; [|vm_compute; reflexivity].
  intros Hclaim.
  assert (Hnone : punishments
            (snd (poll_motion [(30500, 0); (31000, 0)]
                    (fst (poll_motion [(29000, 0)]
                            (SmartPlantDisplay_init true 0))))) = O)
    by (vm_compute; reflexivity).
  rewrite Hclaim in Hnone; [discriminate | reflexivity |].
  repeat constructor; vm_compute; reflexivity.
Qed.

(** C2, amended.  Over polls that see no motion, starting with the
    punishment latch armed, [play_punishment_sound] is invoked at most
    once; it is invoked exactly once as soon as one of those polls comes
    more than 5000 ms after [last_motion_check] with more than
    [motion_timeout] elapsed since [last_motion_time].  A poll without
    motion followed by a poll with motion invokes [play_reward_sound]
    exactly once, at the poll that sees the motion, and not again while
    motion is held. *)
Theorem motion_cues_latched (self : SmartPlantDisplay)
  (pre post held : list (Z * Z)) (t t0 t1 : Z) :
  (Forall quiet (pre ++ post) -> audio_played self = false ->
   (punishments (snd (poll_motion (pre ++ post) self)) <= 1)%nat
   /\ (ticks_diff t (last_motion_check (fst (poll_motion pre self))) > 5000 ->
       ticks_diff t (last_motion_time self) > motion_timeout self ->
       punishments (snd (poll_motion (pre ++ (t, 0) :: post) self)) = 1%nat))
  /\ (Forall moving held ->
      let armed := snd (fst (read_motion_sensor t0 0 self)) in
      let fired := snd (fst (read_motion_sensor t1 1 armed)) in
      rewards (snd (read_motion_sensor t0 0 self)) = O
      /\ snd (read_motion_sensor t1 1 armed) = [play_reward_sound]
      /\ snd (poll_motion held fired) = []
      /\ rewards (snd (poll_motion ((t0, 0) :: (t1, 1) :: held) self))
         = 1%nat).
Proof.
  split.
  - intros Hquiet Harmed.
    pose proof (poll_motion_quiet _ self Hquiet) as Hall.
    cbv zeta in Hall. destruct Hall as (_ & _ & _ & Hcount).
    rewrite Harmed in Hcount. cbn [Nat.b2n] in Hcount.
    split.
    { destruct (audio_played (fst (poll_motion (pre ++ post) self)));
        cbn [Nat.b2n] in Hcount; lia. }
    intros Hgate Hlate.
    apply Forall_app in Hquiet. destruct Hquiet as [Hpre Hpost].
    pose proof (poll_motion_quiet _ self Hpre) as Hp.
    cbv zeta in Hp. destruct Hp as (Hlm & Hto & _ & Hc1).
    rewrite Harmed in Hc1. cbn [Nat.b2n] in Hc1.
    rewrite poll_motion_app. cbn [snd poll_motion].
    set (s1 := fst (poll_motion pre self)) in *.
    rewrite <- Hlm, <- Hto in Hlate.
    pose proof (read_motion_sensor_fires t s1 Hgate Hlate) as Hfire.
    pose proof (read_motion_sensor_quiet t s1) as Hstep.
    cbv zeta in Hstep. destruct Hstep as (_ & _ & _ & _ & _ & Hc2).
    destruct (read_motion_sensor t 0 s1) as [[res s2] calls].
    cbn [fst snd] in Hfire, Hc2.
    pose proof (poll_motion_quiet _ s2 Hpost) as Hq.
    cbv zeta in Hq. destruct Hq as (_ & _ & _ & Hc3).
    destruct (poll_motion post s2) as [s3 calls3].
    cbn [fst snd] in Hc3 |- *.
    rewrite !punishments_app.
    rewrite Hfire in Hc2, Hc3. cbn [Nat.b2n] in Hc2, Hc3.
    destruct (audio_played s1), (audio_played s3); cbn [Nat.b2n] in *; lia.
  - intros Hheld armed fired.
    pose proof (read_motion_sensor_quiet t0 self) as Hstep.
    cbv zeta in Hstep. destruct Hstep as (_ & _ & _ & Hrp & Hrw & _).
    fold armed in Hrp.
    assert (Hedge : read_motion_sensor t1 1 armed
                    = (true,
                       set_reward_played true
                         (set_audio_played false
                            (set_last_motion_time t1 armed)),
                       [play_reward_sound])).
    { unfold read_motion_sensor. cbn [Z.eqb Pos.eqb].
      cbn [reward_played set_audio_played set_last_motion_time].
      rewrite Hrp. reflexivity. }
    assert (Hrest : snd (poll_motion held fired) = []).
    { apply poll_motion_held; [exact Hheld|].
      unfold fired. rewrite Hedge. reflexivity. }
    split; [exact Hrw|]. split; [rewrite Hedge; reflexivity|].
    split; [exact Hrest|].
    rewrite !poll_motion_cons. cbn [snd].
    fold armed. fold fired.
    rewrite Hrest, !rewards_app, Hrw, Hedge. reflexivity.
Qed.

Lemma motion_cues_latched_witness :
  let self := SmartPlantDisplay_init true 0 in
  punishments
    (snd (poll_motion ([(29000, 0)] ++ (34001, 0) :: [(40000, 0)]) self))
  = 1%nat
  /\ rewards
       (snd (poll_motion ((1000, 0) :: (2000, 1) :: [(2200, 1); (2400, 1)])
               self)) = 1%nat.
Proof.
  pose proof (motion_cues_latched (SmartPlantDisplay_init true 0)
                [(29000, 0)] [(40000, 0)] [(2200, 1); (2400, 1)]
                34001 1000 2000) as [Hpunish Hreward].
  split.
  - apply Hpunish.
    + repeat constructor.
    + reflexivity.
    + vm_compute. reflexivity.
    + vm_compute. reflexivity.
  - apply Hreward. repeat constructor.
Defined.

(** ** Touch digitizer *)

Section Calibration.

Variables cal_min cal_max extent : Z.
Hypothesis cal_order : cal_min < cal_max.
Hypothesis extent_pos : 1 <= extent.

Lemma to_screen_monotone (a b : Z) :
  a <= b ->
  to_screen cal_min cal_max extent a <= to_screen cal_min cal_max extent b.
Proof using cal_order extent_pos.
  intros Hab. unfold to_screen, int_truediv.
  assert (Hq : Z.quot ((a - cal_min) * extent) (cal_max - cal_min)
               <= Z.quot ((b - cal_min) * extent) (cal_max - cal_min))
    by (apply Z.quot_le_mono; nia).
  lia.
Qed.

Lemma to_screen_at_min : to_screen cal_min cal_max extent cal_min = 0.
Proof using cal_order extent_pos.
  unfold to_screen, int_truediv.
  replace ((cal_min - cal_min) * extent) with 0 by lia.
  rewrite Z.quot_0_l by lia. lia.
Qed.

Lemma to_screen_at_max :
  to_screen cal_min cal_max extent cal_max = extent - 1.
Proof using cal_order extent_pos.
  unfold to_screen, int_truediv.
  rewrite (Z.mul_comm (cal_max - cal_min) extent).
  rewrite Z.quot_mul by lia. lia.
Qed.

Lemma to_screen_clamped (a : Z) :
  0 <= to_screen cal_min cal_max extent a <= extent - 1.
Proof using cal_order extent_pos. unfold to_screen. lia. Qed.

End Calibration.

(** C4. The calibration map of the constructed controller is
    non-decreasing in each averaged raw value, sends [cal_min] to 0 and
    [cal_max] to 319 (x) and 239 (y), and every coordinate it returns lies
    in [0, 319] x [0, 239]. *)
Theorem calibration_monotone_clamped (x1 x2 y1 y2 : Z) :
  let tc := TouchController_init in
  (x1 <= x2 -> fst (calibrate tc x1 y1) <= fst (calibrate tc x2 y2))
  /\ (y1 <= y2 -> snd (calibrate tc x1 y1) <= snd (calibrate tc x2 y2))
  /\ calibrate tc (cal_x_min tc) (cal_y_min tc) = (0, 0)
  /\ calibrate tc (cal_x_max tc) (cal_y_max tc) = (319, 239)
  /\ 0 <= fst (calibrate tc x1 y1) <= 319
  /\ 0 <= snd (calibrate tc x1 y1) <= 239.
Proof.
  cbv zeta. unfold calibrate. cbn [fst snd TouchController_init
    cal_x_min cal_x_max cal_y_min cal_y_max].
  split; [intros H; apply to_screen_monotone; lia|].
  split; [intros H; apply to_screen_monotone; lia|].
  split; [reflexivity|]. split; [reflexivity|].
  split.
  - pose proof (to_screen_clamped 200 3800 320 ltac:(lia) ltac:(lia) x1).
    lia.
  - pose proof (to_screen_clamped 200 3800 240 ltac:(lia) ltac:(lia) y1).
    lia.
Qed.

Lemma calibration_monotone_clamped_witness :
  let tc := TouchController_init in
  fst (calibrate tc 1500 900) <= fst (calibrate tc 2600 2100)
  /\ snd (calibrate tc 1500 900) <= snd (calibrate tc 2600 2100).
Proof.
  pose proof (calibration_monotone_clamped 1500 2600 900 2100)
    as (Hx & Hy & _).
  split; [apply Hx | apply Hy]; lia.
Defined.

Lemma valid_reading_in_band (x_raw y_raw : Z) :
  valid_reading x_raw y_raw = in_band x_raw && in_band y_raw.
Proof.
  unfold valid_reading, in_band. rewrite !Z.gtb_ltb.
  destruct (100 <? x_raw), (100 <? y_raw), (x_raw <? 4000),
           (y_raw <? 4000); reflexivity.
Qed.

(** One raw read takes one reply off the bus and issues one transaction. *)
Lemma read_touch_raw_wire (cmd : Z) (bus : spi_bus) :
  wire (snd (read_touch_raw cmd bus)) = wire bus ++ transaction cmd
  /\ miso (snd (read_touch_raw cmd bus)) = tl (miso bus).
Proof.
  unfold read_touch_raw, bind, issue, spi_read, ret, transaction.
  destruct bus as [replies ops]. cbn [miso wire].
  destruct replies as [|reply rest]; cbn [miso wire snd tl];
    rewrite <- !app_assoc; split; reflexivity.
Qed.

Lemma read_pairs_S (n : nat) (bus : spi_bus) :
  read_pairs (S n) bus
  = let r1 := read_touch_raw TOUCH_CMD_X bus in
    let r2 := read_touch_raw TOUCH_CMD_Y (snd r1) in
    let r3 := read_pairs n (snd r2) in
    ((fst r1, fst r2) :: fst r3, snd r3).
Proof.
  cbn [read_pairs]. unfold bind, ret.
  destruct (read_touch_raw TOUCH_CMD_X bus) as [x_raw bus1]. cbn [fst snd].
  destruct (read_touch_raw TOUCH_CMD_Y bus1) as [y_raw bus2]. cbn [fst snd].
  destruct (read_pairs n bus2); reflexivity.
Qed.

Lemma sample_loop_S (n : nat) (acc : Z * Z * Z) (bus : spi_bus) :
  sample_loop (S n) acc bus
  = let r1 := read_touch_raw TOUCH_CMD_X bus in
    let r2 := read_touch_raw TOUCH_CMD_Y (snd r1) in
    sample_loop n
      (if valid_reading (fst r1) (fst r2)
       then (fst (fst acc) + fst r1, snd (fst acc) + fst r2, snd acc + 1)
       else acc)
      (snd r2).
Proof.
  cbn [sample_loop]. unfold bind.
  destruct (read_touch_raw TOUCH_CMD_X bus) as [x_raw bus1]. cbn [fst snd].
  destruct (read_touch_raw TOUCH_CMD_Y bus1) as [y_raw bus2]. cbn [fst snd].
  destruct acc as [[x_sum y_sum] valid]. reflexivity.
Qed.

Lemma read_pairs_wire (n : nat) (bus : spi_bus) :
  wire (snd (read_pairs n bus))
  = wire bus
    ++ concat (repeat (transaction TOUCH_CMD_X ++ transaction TOUCH_CMD_Y) n)
  /\ length (fst (read_pairs n bus)) = n.
Proof.
  revert bus. induction n as [|n IH]; intros bus.
  - cbn. rewrite app_nil_r. split; reflexivity.
  - rewrite read_pairs_S. cbv zeta. cbn [fst snd repeat concat length].
    destruct (IH (snd (read_touch_raw TOUCH_CMD_Y
                         (snd (read_touch_raw TOUCH_CMD_X bus)))))
      as [IHw IHl].
    rewrite IHw, IHl.
    destruct (read_touch_raw_wire TOUCH_CMD_Y
                (snd (read_touch_raw TOUCH_CMD_X bus))) as [Hy _].
    destruct (read_touch_raw_wire TOUCH_CMD_X bus) as [Hx _].
    rewrite Hy, Hx, <- !app_assoc. split; reflexivity.
Qed.

(** The sampling loop adds up exactly the surviving pairs. *)
Lemma sample_loop_surviving (n : nat) (x_sum y_sum valid : Z)
  (bus : spi_bus) :
  sample_loop n (x_sum, y_sum, valid) bus
  = let kept := surviving (fst (read_pairs n bus)) in
    ((x_sum + fold_right Z.add 0 (map fst kept),
      y_sum + fold_right Z.add 0 (map snd kept),
      valid + Z.of_nat (length kept)),
     snd (read_pairs n bus)).
Proof.
  revert x_sum y_sum valid bus. induction n as [|n IH];
    intros x_sum y_sum valid bus.
  - cbn. rewrite !Z.add_0_r. reflexivity.
  - rewrite sample_loop_S, read_pairs_S. cbv zeta. cbn [fst snd].
    rewrite valid_reading_in_band.
    unfold surviving at 1 2 3. cbn [filter fst snd].
    fold (surviving (fst (read_pairs n (snd (read_touch_raw TOUCH_CMD_Y
            (snd (read_touch_raw TOUCH_CMD_X bus))))))).
    destruct (in_band (fst (read_touch_raw TOUCH_CMD_X bus))
              && in_band (fst (read_touch_raw TOUCH_CMD_Y
                                 (snd (read_touch_raw TOUCH_CMD_X bus)))));
      rewrite IH; cbv zeta; cbn [map fold_right length fst snd];
      [rewrite Nat2Z.inj_succ; f_equal; f_equal; [f_equal|]; lia
      | reflexivity].
Qed.

(** C6. With the interrupt line at 1, [get_touch] returns [None] and leaves
    the bus untouched.  Otherwise it reads three (x, y) pairs, six
    transactions with X before Y, drops the pairs with a value outside the
    open band (100, 4000), returns [None] when none is left and otherwise
    calibrates the per-axis integer means of the pairs that are left. *)
Theorem get_touch_poll (self : TouchController) (irq_state : Z)
  (bus : spi_bus) :
  get_touch self 1 bus = (None, bus)
  /\ (irq_state <> 1 ->
      get_touch self irq_state bus
      = (poll_spec self (fst (read_pairs 3 bus)), snd (read_pairs 3 bus))
      /\ length (fst (read_pairs 3 bus)) = 3%nat
      /\ wire (snd (read_pairs 3 bus))
         = wire bus
           ++ concat (repeat (transaction TOUCH_CMD_X
                              ++ transaction TOUCH_CMD_Y) 3)).
Proof.
  split; [reflexivity|]. intros Hirq.
  destruct (read_pairs_wire 3 bus) as [Hwire Hlen].
  split; [|split; assumption].
  unfold get_touch. apply Z.eqb_neq in Hirq. rewrite Hirq.
  unfold bind. rewrite sample_loop_surviving. cbv zeta.
  unfold poll_spec, integer_mean. rewrite !Z.add_0_l.
  destruct (surviving (fst (read_pairs 3 bus))) as [|p kept] eqn:Hkept.
  - reflexivity.
  - assert (Hpos : (Z.of_nat (length (p :: kept)) =? 0) = false)
      by (apply Z.eqb_neq; cbn [length]; lia).
    rewrite Hpos, !length_map. reflexivity.
Qed.

Lemma get_touch_poll_witness :
  let bus := mkBus [[0x3E; 0x80]; [0x5D; 0xC0]; [0x00; 0x00]; [0x5D; 0xC0];
                    [0x3F; 0x00]; [0x5E; 0x00]] [] in
  fst (get_touch TouchController_init 0 bus)
  = poll_spec TouchController_init [(2000, 3000); (0, 3000); (2016, 3008)]
  /\ fst (get_touch TouchController_init 0 bus) = Some (160, 186).
Proof.
  pose proof (get_touch_poll TouchController_init 0
                (mkBus [[0x3E; 0x80]; [0x5D; 0xC0]; [0x00; 0x00];
                        [0x5D; 0xC0]; [0x3F; 0x00]; [0x5E; 0x00]] []))
    as [_ Hpoll].
  destruct Hpoll as (Hrun & _ & _); [lia|].
  cbv zeta. rewrite Hrun. split; vm_compute; reflexivity.
Defined.

(** ** Screen controller *)

Lemma enumerate_presets :
  enumerate presets = [(0, 15); (1, 30); (2, 60); (3, 120)].
Proof. reflexivity. Qed.

(** Decides the conditionals of the goal one integer comparison at a time,
    simplifying after each case split so that dead branches disappear. *)
Ltac split_tests :=
  repeat first
    [ progress cbn [andb orb negb]
    | match goal with
      | |- context [if ?c then _ else _] =>
          match c with
          | context [?a <=? ?b] => destruct (Z.leb_spec a b)
          | context [?a <? ?b] => destruct (Z.ltb_spec a b)
          | context [?a >=? ?b] => rewrite (Z.geb_leb a b)
          | context [?a =? ?b] => destruct (Z.eqb_spec a b)
          end
      end ].

Ltac project_fields :=
  cbn [width height cs current_screen last_update last_touch_time
       manual_mode last_drawn_screen screen_needs_redraw last_light_value
       data_needs_update last_motion_time motion_timeout
       motion_timeout_seconds last_motion_check audio_played reward_played
       last_displayed_values sensor_data
       set_current_screen set_last_touch_time set_manual_mode
       set_screen_needs_redraw set_motion_timeout set_motion_timeout_seconds].

(** What the preset loop does to the timeout pair and the redraw flag. *)
Lemma apply_presets_timeout (x : Z) (self : SmartPlantDisplay) :
  let self' := apply_presets (enumerate presets) x self in
  (motion_timeout self = motion_timeout_seconds self * 1000 ->
   motion_timeout self' = motion_timeout_seconds self' * 1000)
  /\ (5 <= motion_timeout_seconds self <= 300 ->
      5 <= motion_timeout_seconds self' <= 300)
  /\ (forall i, 0 <= i < 4 ->
      rx0 (preset_button i) <= x <= rx1 (preset_button i) ->
      motion_timeout_seconds self' = nth (Z.to_nat i) presets 0
      /\ screen_needs_redraw self' = true)
  /\ ((forall i, 0 <= i < 4 ->
       ~ rx0 (preset_button i) <= x <= rx1 (preset_button i)) ->
      self' = self).
Proof.
  rewrite enumerate_presets. cbv zeta. cbn [apply_presets].
  split; [|split; [|split]].
  - intros Hinv. split_tests; project_fields; lia.
  - intros Hrange. split_tests; project_fields; lia.
  - intros i Hi Hin.
    assert (Hcases : i = 0 \/ i = 1 \/ i = 2 \/ i = 3) by lia.
    unfold preset_button in Hin. cbn [rx0 rx1] in Hin.
    destruct Hcases as [ -> | [ -> | [ -> | -> ] ] ];
      split_tests; project_fields; try lia; split; reflexivity.
  - intros Hout.
    pose proof (Hout 0 ltac:(lia)) as H0. pose proof (Hout 1 ltac:(lia)) as H1.
    pose proof (Hout 2 ltac:(lia)) as H2. pose proof (Hout 3 ltac:(lia)) as H3.
    unfold preset_button in H0, H1, H2, H3.
    cbn [rx0 rx1] in H0, H1, H2, H3.
    split_tests; try reflexivity; lia.
Qed.

(** Turns a containment test in the context into bounds on [x] and [y]. *)
Ltac open_rects :=
  repeat match goal with
         | H : contains _ _ _ = true |- _ =>
             unfold contains, button_minus10, button_plus10, button_minus5,
               button_plus5, preset_button in H;
             cbn [rx0 ry0 rx1 ry1] in H;
             rewrite !andb_true_iff, !Z.leb_le in H
         | H : contains _ _ _ = false |- _ =>
             unfold contains, button_minus10, button_plus10, button_minus5,
               button_plus5, preset_button in H;
             cbn [rx0 ry0 rx1 ry1] in H;
             rewrite !andb_false_iff, !Z.leb_gt in H
         end.

(** The hit tests of the Settings screen, on the 240-row display with the
    timeout within [5, 300] seconds. *)
Lemma touch_dispatch_settings (x y : Z) (self : SmartPlantDisplay) :
  current_screen self = 2 -> height self = 240 ->
  5 <= motion_timeout_seconds self <= 300 ->
  let self' := touch_dispatch x y self in
  5 <= motion_timeout_seconds self' <= 300
  /\ (contains button_minus10 x y = true ->
      motion_timeout_seconds self'
      = Z.max 5 (motion_timeout_seconds self - 10)
      /\ screen_needs_redraw self' = true)
  /\ (contains button_plus10 x y = true ->
      motion_timeout_seconds self'
      = Z.min 300 (motion_timeout_seconds self + 10)
      /\ screen_needs_redraw self' = true)
  /\ (contains button_minus5 x y = true ->
      motion_timeout_seconds self'
      = Z.max 5 (motion_timeout_seconds self - 5)
      /\ screen_needs_redraw self' = true)
  /\ (contains button_plus5 x y = true ->
      motion_timeout_seconds self'
      = Z.min 300 (motion_timeout_seconds self + 5)
      /\ screen_needs_redraw self' = true)
  /\ (forall i, 0 <= i < 4 -> contains (preset_button i) x y = true ->
      motion_timeout_seconds self' = nth (Z.to_nat i) presets 0
      /\ screen_needs_redraw self' = true).
Proof.
  intros Hscreen Hheight Hrange. cbv zeta.
  unfold touch_dispatch. cbv zeta. rewrite Hscreen, Hheight.
  pose proof (apply_presets_timeout x self) as Hp.
  cbv zeta in Hp. revert Hp.
  generalize (apply_presets (enumerate presets) x self).
  intros looped (_ & Hkeep & Hhit & _).
  specialize (Hkeep Hrange).
  assert (Hpreset : forall i, 0 <= i < 4 ->
            contains (preset_button i) x y = true ->
            motion_timeout_seconds looped = nth (Z.to_nat i) presets 0
            /\ screen_needs_redraw looped = true).
  { intros i Hi Hin. apply Hhit; [exact Hi|].
    open_rects. unfold preset_button. cbn [rx0 rx1]. lia. }
  clear Hhit.
  split; [|split; [|split; [|split; [|split]]]].
  - split_tests; project_fields; lia.
  - intros Hin. open_rects.
    split_tests; project_fields; try lia; split; reflexivity.
  - intros Hin. open_rects.
    split_tests; project_fields; try lia; split; reflexivity.
  - intros Hin. open_rects.
    split_tests; project_fields; try lia; split; reflexivity.
  - intros Hin. open_rects.
    split_tests; project_fields; try lia; split; reflexivity.
  - intros i Hi Hin. pose proof (Hpreset i Hi Hin) as Hboth. open_rects.
    split_tests; project_fields; try lia; exact Hboth.
Qed.

(** On every screen, a touch keeps the timeout within [5, 300] seconds. *)
Lemma handle_touch_range (t x y : Z) (self : SmartPlantDisplay) :
  5 <= motion_timeout_seconds self <= 300 ->
  5 <= motion_timeout_seconds (handle_touch t x y self) <= 300.
Proof.
  intros Hrange.
  destruct (handle_touch_dispatch t x y self) as (_ & Hsec & _).
  cbv zeta in Hsec. rewrite Hsec. unfold touch_dispatch. cbv zeta.
  destruct (apply_presets_timeout x
              (set_last_touch_time t (set_manual_mode true self)))
    as (_ & Hloop & _).
  specialize (Hloop Hrange). revert Hloop.
  generalize (apply_presets (enumerate presets) x
                (set_last_touch_time t (set_manual_mode true self))).
  intros looped Hloop.
  repeat match goal with
         | |- context [if ?c then _ else _] => destruct c
         end; project_fields; lia.
Qed.

Lemma handle_touches_range (touches : list (Z * Z * Z))
  (self : SmartPlantDisplay) :
  5 <= motion_timeout_seconds self <= 300 ->
  5 <= motion_timeout_seconds (handle_touches touches self) <= 300.
Proof.
  revert self. induction touches as [|[[t x] y] touches IH];
    intros self Hrange; [exact Hrange|].
  cbn [handle_touches]. apply IH, handle_touch_range, Hrange.
Qed.

(** C7. On the Settings screen of the 240-row display, with the timeout
    within [5, 300] seconds before the touch, it is within [5, 300] after
    it; the -10 s and -5 s buttons clamp at 5, the +10 s and +5 s buttons
    clamp at 300, a preset button stores its preset, and every one of these
    buttons sets [screen_needs_redraw].  The range holds after any sequence
    of touches on the constructed object. *)
Theorem settings_timeout_clamped (self : SmartPlantDisplay) (t x y : Z)
  (touches : list (Z * Z * Z)) (cs_pin : bool) (boot : Z) :
  5 <= motion_timeout_seconds
         (handle_touches touches (SmartPlantDisplay_init cs_pin boot)) <= 300
  /\
  (current_screen self = 2 -> height self = 240 ->
  5 <= motion_timeout_seconds self <= 300 ->
  let self' := handle_touch t x y self in
  5 <= motion_timeout_seconds self' <= 300
  /\ (contains button_minus10 x y = true ->
      motion_timeout_seconds self'
      = Z.max 5 (motion_timeout_seconds self - 10))
  /\ (contains button_plus10 x y = true ->
      motion_timeout_seconds self'
      = Z.min 300 (motion_timeout_seconds self + 10))
  /\ (contains button_minus5 x y = true ->
      motion_timeout_seconds self'
      = Z.max 5 (motion_timeout_seconds self - 5))
  /\ (contains button_plus5 x y = true ->
      motion_timeout_seconds self'
      = Z.min 300 (motion_timeout_seconds self + 5))
  /\ (forall i, 0 <= i < 4 -> contains (preset_button i) x y = true ->
      motion_timeout_seconds self' = nth (Z.to_nat i) presets 0)
  /\ (existsb (fun r => contains r x y) settings_buttons = true ->
      screen_needs_redraw self' = true)).
Proof.
  split; [apply handle_touches_range; cbn; lia|].
  intros Hscreen Hheight Hrange. cbv zeta.
  destruct (handle_touch_dispatch t x y self)
    as (_ & Hsec & _ & _ & _ & Hflag).
  cbv zeta in Hsec, Hflag. rewrite Hsec, Hflag.
  destruct (touch_dispatch_settings x y
              (set_last_touch_time t (set_manual_mode true self))
              Hscreen Hheight Hrange)
    as (Hkeep & Hm10 & Hp10 & Hm5 & Hp5 & Hpre).
  cbv zeta in Hkeep, Hm10, Hp10, Hm5, Hp5, Hpre.
  split; [exact Hkeep|].
  split; [intros Hin; exact (proj1 (Hm10 Hin))|].
  split; [intros Hin; exact (proj1 (Hp10 Hin))|].
  split; [intros Hin; exact (proj1 (Hm5 Hin))|].
  split; [intros Hin; exact (proj1 (Hp5 Hin))|].
  split; [intros i Hi Hin; exact (proj1 (Hpre i Hi Hin))|].
  intros Hin. unfold settings_buttons in Hin. cbn [existsb] in Hin.
  rewrite !orb_true_iff in Hin. apply orb_true_iff. right.
  destruct Hin as [Hin|[Hin|[Hin|[Hin|[Hin|[Hin|[Hin|[Hin|Hin]]]]]]]].
  - exact (proj2 (Hm10 Hin)).
  - exact (proj2 (Hp10 Hin)).
  - exact (proj2 (Hm5 Hin)).
  - exact (proj2 (Hp5 Hin)).
  - exact (proj2 (Hpre 0 ltac:(lia) Hin)).
  - exact (proj2 (Hpre 1 ltac:(lia) Hin)).
  - exact (proj2 (Hpre 2 ltac:(lia) Hin)).
  - exact (proj2 (Hpre 3 ltac:(lia) Hin)).
  - discriminate Hin.
Qed.

Lemma settings_timeout_clamped_witness :
  let self := handle_touch 100 300 220 (SmartPlantDisplay_init true 0) in
  motion_timeout_seconds (handle_touch 200 30 60 self) = 20
  /\ screen_needs_redraw (handle_touch 200 30 60 self) = true.
Proof.
  cbv zeta.
  destruct (settings_timeout_clamped
              (handle_touch 100 300 220 (SmartPlantDisplay_init true 0))
              200 30 60 [] true 0) as [_ Hsettings].
  destruct Hsettings as (_ & Hminus10 & _ & _ & _ & _ & Hflag).
  - reflexivity.
  - reflexivity.
  - vm_compute. split; discriminate.
  - split; [rewrite Hminus10; reflexivity | apply Hflag; reflexivity].
Defined.

(** A touch outside every hit region passes through the hit tests without
    any effect. *)
Lemma touch_dispatch_miss (x y : Z) (self : SmartPlantDisplay) :
  in_hit_region self x y = false -> touch_dispatch x y self = self.
Proof.
  unfold in_hit_region, in_navigation_bar, touch_dispatch. cbv zeta.
  intros Hmiss. apply orb_false_iff in Hmiss. destruct Hmiss as [Hnav Hmiss].
  rewrite Hnav. revert Hmiss.
  destruct (Z.eqb_spec (current_screen self) 0) as [H0|H0].
  { unfold main_widgets. cbn [existsb]. rewrite !orb_false_iff.
    intros (W1 & W2 & W3 & W4 & W5 & _). open_rects.
    split_tests; try reflexivity; lia. }
  destruct (Z.eqb_spec (current_screen self) 1) as [H1|H1];
    [discriminate|].
  destruct (Z.eqb_spec (current_screen self) 2) as [H2|H2];
    [|reflexivity].
  unfold settings_buttons. cbn [existsb]. rewrite !orb_false_iff.
  intros (B1 & B2 & B3 & B4 & P0 & P1 & P2 & P3 & _).
  destruct (apply_presets_timeout x self) as (_ & _ & _ & Hloop).
  open_rects.
  split_tests; try reflexivity; try lia.
  apply Hloop. intros i Hi. unfold preset_button. cbn [rx0 rx1].
  assert (Hcases : i = 0 \/ i = 1 \/ i = 2 \/ i = 3) by lia.
  destruct Hcases as [ -> | [ -> | [ -> | -> ] ] ]; lia.
Qed.

(** C8. A touch that lies in no hit region of the screen shown (not in the
    navigation bar, in no widget or button rectangle) leaves
    [current_screen] as it was and leaves [screen_needs_redraw] as it
    was. *)
Theorem touch_outside_hit_regions (self : SmartPlantDisplay) (t x y : Z) :
  in_hit_region self x y = false ->
  current_screen (handle_touch t x y self) = current_screen self
  /\ screen_needs_redraw (handle_touch t x y self)
     = screen_needs_redraw self.
Proof.
  intros Hmiss.
  destruct (handle_touch_dispatch t x y self) as (Hcur & _ & _ & _ & _ & Hflag).
  cbv zeta in Hcur, Hflag. rewrite Hcur, Hflag.
  rewrite (touch_dispatch_miss x y
             (set_last_touch_time t (set_manual_mode true self)) Hmiss).
  project_fields. rewrite Z.eqb_refl. split; reflexivity.
Qed.

Lemma touch_outside_hit_regions_witness :
  current_screen (handle_touch 200 150 60
                    (mkSmartPlantDisplay 320 240 true 2 0 100 true 2 false 0
                       false 0 30000 30 0 false false
                       (mkDisplayedValues 0 0 0 0)
                       (mkSensorData (45 # 2) 65 750 32767 80 85))) = 2
  /\ screen_needs_redraw
       (handle_touch 200 150 60
          (mkSmartPlantDisplay 320 240 true 2 0 100 true 2 false 0
             false 0 30000 30 0 false false
             (mkDisplayedValues 0 0 0 0)
             (mkSensorData (45 # 2) 65 750 32767 80 85))) = false
  /\ current_screen (handle_touch 300 105 50 (SmartPlantDisplay_init true 0))
     = 0.
Proof.
  cbv zeta.
  destruct (touch_outside_hit_regions
              (mkSmartPlantDisplay 320 240 true 2 0 100 true 2 false 0
                 false 0 30000 30 0 false false
                 (mkDisplayedValues 0 0 0 0)
                 (mkSensorData (45 # 2) 65 750 32767 80 85))
              200 150 60) as [Hcur Hflag]; [reflexivity|].
  destruct (touch_outside_hit_regions (SmartPlantDisplay_init true 0)
              300 105 50) as [Hcur0 _]; [reflexivity|].
  rewrite Hcur, Hflag, Hcur0. repeat split.
Defined.

(** ** The timeout pair *)

(** The hit tests keep the millisecond timeout at 1000 times the seconds
    value. *)
Lemma touch_dispatch_timeout_pair (x y : Z) (self : SmartPlantDisplay) :
  motion_timeout self = motion_timeout_seconds self * 1000 ->
  motion_timeout (touch_dispatch x y self)
  = motion_timeout_seconds (touch_dispatch x y self) * 1000.
Proof.
  intros Hpair. unfold touch_dispatch. cbv zeta.
  destruct (apply_presets_timeout x self) as (Hloop & _).
  specialize (Hloop Hpair). revert Hloop.
  generalize (apply_presets (enumerate presets) x self). intros looped Hloop.
  repeat match goal with
         | |- context [if ?c then _ else _] => destruct c
         end; project_fields; first [exact Hpair | exact Hloop | reflexivity].
Qed.

(** C10. The constructed object has [motion_timeout] equal to
    [motion_timeout_seconds * 1000], every [handle_touch] keeps that
    equation, and so it holds after any sequence of touches on the
    constructed object. *)
Theorem timeout_pair_invariant (cs_pin : bool) (boot t x y : Z)
  (self : SmartPlantDisplay) (touches : list (Z * Z * Z)) :
  motion_timeout (SmartPlantDisplay_init cs_pin boot)
  = motion_timeout_seconds (SmartPlantDisplay_init cs_pin boot) * 1000
  /\ (motion_timeout self = motion_timeout_seconds self * 1000 ->
      motion_timeout (handle_touch t x y self)
      = motion_timeout_seconds (handle_touch t x y self) * 1000)
  /\ motion_timeout (handle_touches touches (SmartPlantDisplay_init cs_pin boot))
     = motion_timeout_seconds
         (handle_touches touches (SmartPlantDisplay_init cs_pin boot)) * 1000.
Proof.
  assert (Hstep : forall s t' x' y',
            motion_timeout s = motion_timeout_seconds s * 1000 ->
            motion_timeout (handle_touch t' x' y' s)
            = motion_timeout_seconds (handle_touch t' x' y' s) * 1000).
  { intros s t' x' y' Hpair.
    destruct (handle_touch_dispatch t' x' y' s) as (_ & Hsec & Hms & _).
    cbv zeta in Hsec, Hms. rewrite Hsec, Hms.
    apply touch_dispatch_timeout_pair. exact Hpair. }
  split; [reflexivity|]. split; [apply Hstep|].
  assert (Hall : forall l s,
            motion_timeout s = motion_timeout_seconds s * 1000 ->
            motion_timeout (handle_touches l s)
            = motion_timeout_seconds (handle_touches l s) * 1000).
  { induction l as [|[[t' x'] y'] l IH]; intros s Hpair; [exact Hpair|].
    cbn [handle_touches]. apply IH, Hstep, Hpair. }
  apply Hall. reflexivity.
Qed.

Lemma timeout_pair_invariant_witness :
  let self := handle_touch 100 300 220 (SmartPlantDisplay_init true 0) in
  motion_timeout (handle_touch 200 250 60 self) = 40000
  /\ motion_timeout_seconds (handle_touch 200 250 60 self) = 40.
Proof.
  cbv zeta.
  destruct (timeout_pair_invariant true 0 200 250 60
              (handle_touch 100 300 220 (SmartPlantDisplay_init true 0)) [])
    as (_ & Hkeep & _).
  rewrite Hkeep; [split; reflexivity | reflexivity].
Defined.

(** * Further properties of the display driver *)

(** ** Window payloads *)

(** Two big-endian bytes carry the low 16 bits of the value packed. *)
Lemma unpack_pack_H (v : Z) : unpack_H (pack_H v) = v mod 65536.
Proof.
  unfold unpack_H, pack_H.
  change 65536 with (2 ^ 16). rewrite <- Z.land_ones by lia.
  apply Z.bits_inj'. intros n Hn.
  rewrite Z.lor_spec, !Z.land_spec, Z.shiftl_spec by lia.
  change 255 with (Z.ones 8).
  destruct (Z_lt_ge_dec n 8) as [Hlow|Hhigh].
  - rewrite (Z.testbit_neg_r _ (n - 8)) by lia.
    rewrite !Z.testbit_ones_nonneg by lia.
    destruct (Z.ltb_spec n 8), (Z.ltb_spec n 16); try lia.
    cbn [orb]. reflexivity.
  - rewrite Z.land_spec, Z.shiftr_spec by lia.
    replace (n - 8 + 8) with n by lia.
    rewrite !Z.testbit_ones_nonneg by lia.
    destruct (Z.ltb_spec (n - 8) 8), (Z.ltb_spec n 8), (Z.ltb_spec n 16);
      try lia; rewrite ?andb_true_r, ?andb_false_r, ?orb_false_r;
      reflexivity.
Qed.

Lemma unpack_pack_H_small (v : Z) :
  0 <= v < 65536 -> unpack_H (pack_H v) = v.
Proof. intros Hv. rewrite unpack_pack_H. apply Z.mod_small, Hv. Qed.

(** The pixel stream of [fill_rect] carries no window. *)
Lemma window_coordinates_stream (data : list Z) (l : list Z)
  (rest : list bus_op) :
  length data = 2%nat ->
  window_coordinates (flat_map (fun _ => [SpiWrite data]) l ++ rest)
  = window_coordinates rest.
Proof.
  intros Hlen. destruct data as [|hi [|lo [|extra data]]]; try discriminate.
  induction l as [|k l IH]; [reflexivity|].
  cbn [flat_map app]. cbn [window_coordinates].
  destruct (flat_map (fun _ => [SpiWrite [hi; lo]]) l ++ rest)
    as [|op tail] eqn:Hshape; [exact IH|].
  destruct op; try exact IH.
Qed.

(** What [set_window] puts on the wire, decoded: the four bounds modulo
    2^16, columns first. *)
Lemma window_coordinates_set_window (self : SmartPlantDisplay)
  (x0 y0 x1 y1 : Z) (rest : list bus_op) :
  window_coordinates (set_window self x0 y0 x1 y1 ++ rest)
  = [x0 mod 65536; x1 mod 65536; y0 mod 65536; y1 mod 65536]
    ++ window_coordinates rest.
Proof.
  rewrite <- !unpack_pack_H.
  unfold set_window, write_cmd_data, write_cmd, cs_low, cs_high, dc_low,
    dc_high, payload_bytes, pack_HH, pack_H.
  destruct (cs self); cbn [app window_coordinates Z.eqb Pos.eqb orb
    ILI9341_CASET ILI9341_PASET ILI9341_RAMWR]; [reflexivity|].
  destruct rest as [|op rest]; [reflexivity|].
  destruct op; try reflexivity.
  destruct rest as [|op rest]; [reflexivity|].
  destruct op; try reflexivity.
  destruct data as [|a [|b [|c [|d [|e data]]]]]; reflexivity.
Qed.

Lemma pixel_words_app (xs ys : list bus_op) :
  pixel_words (xs ++ ys) = (pixel_words xs + pixel_words ys)%nat.
Proof. unfold pixel_words. rewrite filter_app, length_app. reflexivity. Qed.

Lemma pixel_words_set_window (self : SmartPlantDisplay) (x0 y0 x1 y1 : Z) :
  pixel_words (set_window self x0 y0 x1 y1) = O.
Proof.
  unfold set_window, write_cmd_data, write_cmd, cs_low, cs_high, dc_low,
    dc_high, payload_bytes, pack_HH, pack_H.
  destruct (cs self); reflexivity.
Qed.

Lemma pixel_words_stream (data : list Z) (l : list Z) :
  length data = 2%nat ->
  pixel_words (flat_map (fun _ => [SpiWrite data]) l) = length l.
Proof.
  intros Hlen. destruct data as [|hi [|lo [|extra data]]]; try discriminate.
  induction l as [|k l IH]; [reflexivity|].
  cbn [flat_map]. rewrite pixel_words_app, IH. reflexivity.
Qed.

Lemma range_length (n : Z) : length (range n) = Z.to_nat n.
Proof. unfold range. rewrite length_map, length_seq. reflexivity. Qed.

(** How many pixel words [fill_rect] streams, whatever it is given: the
    product of the clipped sides when that is positive, none otherwise. *)
Lemma fill_rect_pixel_words (self : SmartPlantDisplay) (x y w h color : Z) :
  pixel_words (fill_rect self x y w h color)
  = Z.to_nat (fst (fill_rect_clip self x y w h)
              * snd (fill_rect_clip self x y w h)).
Proof.
  unfold fill_rect.
  destruct (fill_rect_clip self x y w h) as [w' h']. cbn [fst snd].
  rewrite !pixel_words_app, pixel_words_set_window.
  rewrite pixel_words_stream by reflexivity.
  rewrite range_length.
  unfold cs_low, cs_high, dc_high. destruct (cs self); cbn; lia.
Qed.

Lemma fill_rect_window_coordinates (self : SmartPlantDisplay)
  (x y w h color : Z) :
  window_coordinates (fill_rect self x y w h color)
  = let '(x0, y0, x1, y1) := fill_rect_window self x y w h in
    [x0 mod 65536; x1 mod 65536; y0 mod 65536; y1 mod 65536].
Proof.
  unfold fill_rect, fill_rect_window.
  destruct (fill_rect_clip self x y w h) as [w' h'].
  rewrite window_coordinates_set_window.
  unfold cs_low, cs_high, dc_high.
  destruct (cs self); cbn [app window_coordinates];
    rewrite window_coordinates_stream by reflexivity; reflexivity.
Qed.

(** The window and the pixel count of [fill_rect] for a rectangle with its
    origin on the screen and positive sides. *)
Lemma fill_rect_on_screen (self : SmartPlantDisplay) (x y w h color : Z) :
  width self <= 65536 -> height self <= 65536 ->
  0 <= x < width self -> 0 <= y < height self -> 0 < w -> 0 < h ->
  let x1 := Z.min (x + w) (width self) - 1 in
  let y1 := Z.min (y + h) (height self) - 1 in
  window_coordinates (fill_rect self x y w h color) = [x; x1; y; y1]
  /\ x <= x1 < width self /\ y <= y1 < height self
  /\ pixel_words (fill_rect self x y w h color)
     = Z.to_nat ((x1 - x + 1) * (y1 - y + 1)).
Proof.
  intros Hw Hh Hx Hy Hpw Hph. cbv zeta.
  rewrite fill_rect_window_coordinates, fill_rect_pixel_words.
  unfold fill_rect_window, fill_rect_clip. cbn [fst snd].
  destruct (Z.gtb_spec (x + w) (width self)),
           (Z.gtb_spec (y + h) (height self)).
  all: rewrite !Z.mod_small by lia.
  all: repeat split; try lia.
  all: try (apply f_equal; lia).
  all: repeat (f_equal; try lia).
Qed.

(** X1. For a rectangle with its origin on the screen and positive sides,
    on a display of at most 65536 columns and rows, the window [fill_rect]
    puts on the wire decodes to bounds inside the screen, its right and
    bottom edges are the rectangle's clipped to the screen, and the pixel
    words streamed are exactly as many as the window holds. *)
Theorem fill_rect_streams_its_window (self : SmartPlantDisplay)
  (x y w h color : Z) :
  width self <= 65536 -> height self <= 65536 ->
  0 <= x < width self -> 0 <= y < height self -> 0 < w -> 0 < h ->
  let x1 := Z.min (x + w) (width self) - 1 in
  let y1 := Z.min (y + h) (height self) - 1 in
  window_coordinates (fill_rect self x y w h color) = [x; x1; y; y1]
  /\ x <= x1 < width self /\ y <= y1 < height self
  /\ pixel_words (fill_rect self x y w h color)
     = Z.to_nat ((x1 - x + 1) * (y1 - y + 1)).
Proof.
  intros Hw Hh Hx Hy Hpw Hph.
  exact (fill_rect_on_screen self x y w h color Hw Hh Hx Hy Hpw Hph).
Qed.

Lemma fill_rect_streams_its_window_witness :
  let self := SmartPlantDisplay_init true 0 in
  window_coordinates (fill_rect self 310 235 20 20 0xF800)
  = [310; 319; 235; 239]
  /\ pixel_words (fill_rect self 310 235 20 20 0xF800) = 50%nat.
Proof.
  destruct (fill_rect_streams_its_window (SmartPlantDisplay_init true 0)
              310 235 20 20 0xF800) as (Hwin & _ & _ & Hcount);
    try (cbn; lia).
  split; [exact Hwin | exact Hcount].
Defined.



(** X3. [pixel] on the screen programs the one-pixel window (x, x, y, y)
    and sends one pixel word; off the screen it sends nothing at all. *)
Theorem pixel_on_and_off_screen (self : SmartPlantDisplay) (x y color : Z) :
  (width self <= 65536 -> height self <= 65536 ->
   0 <= x < width self -> 0 <= y < height self ->
   window_coordinates (pixel self x y color) = [x; x; y; y]
   /\ pixel_words (pixel self x y color) = 1%nat)
  /\ (~ (0 <= x < width self /\ 0 <= y < height self) ->
      pixel self x y color = []).
Proof.
  unfold pixel. split.
  - intros Hw Hh Hx Hy.
    destruct (Z.leb_spec 0 x), (Z.ltb_spec x (width self)),
             (Z.leb_spec 0 y), (Z.ltb_spec y (height self)); try lia.
    cbn [andb]. split.
    + rewrite window_coordinates_set_window.
      rewrite !Z.mod_small by lia.
      unfold write_data, cs_low, cs_high, dc_high, payload_bytes, pack_H.
      destruct (cs self); reflexivity.
    + rewrite pixel_words_app, pixel_words_set_window.
      unfold write_data, cs_low, cs_high, dc_high, payload_bytes, pack_H.
      destruct (cs self); reflexivity.
  - intros Hoff.
    destruct (Z.leb_spec 0 x), (Z.ltb_spec x (width self)),
             (Z.leb_spec 0 y), (Z.ltb_spec y (height self));
      cbn [andb]; try reflexivity; lia.
Qed.

Lemma pixel_on_and_off_screen_witness :
  let self := SmartPlantDisplay_init true 0 in
  window_coordinates (pixel self 319 0 0x07E0) = [319; 319; 0; 0]
  /\ pixel self 320 0 0x07E0 = []
  /\ pixel self 5 (-1) 0x07E0 = [].
Proof.
  destruct (pixel_on_and_off_screen (SmartPlantDisplay_init true 0)
              319 0 0x07E0) as [Hon _].
  destruct Hon as [Hwin _]; try (cbn; lia).
  destruct (pixel_on_and_off_screen (SmartPlantDisplay_init true 0)
              320 0 0x07E0) as [_ Hoff1].
  destruct (pixel_on_and_off_screen (SmartPlantDisplay_init true 0)
              5 (-1) 0x07E0) as [_ Hoff2].
  split; [exact Hwin|]. split; [apply Hoff1 | apply Hoff2]; cbn; lia.
Defined.

(** X4. [fill] covers the screen: its window runs from (0, 0) to
    (width - 1, height - 1) and it streams [width * height] pixel words;
    [hline] and [vline] stream one pixel word per pixel of the part of the
    line that is on the screen. *)
Theorem fill_covers_the_screen (self : SmartPlantDisplay)
  (x y len color : Z) :
  0 < width self <= 65536 -> 0 < height self <= 65536 ->
  (window_coordinates (fill self color)
   = [0; width self - 1; 0; height self - 1]
   /\ pixel_words (fill self color)
      = Z.to_nat (width self * height self))
  /\ (0 <= x < width self -> 0 <= y < height self -> 0 < len ->
      pixel_words (hline self x y len color)
      = Z.to_nat (Z.min len (width self - x))
      /\ pixel_words (vline self x y len color)
         = Z.to_nat (Z.min len (height self - y))).
Proof.
  intros Hw Hh. split.
  - unfold fill.
    destruct (fill_rect_on_screen self 0 0 (width self)
                (height self) color) as (Hwin & _ & _ & Hcount); try lia.
    cbv zeta in Hwin, Hcount. rewrite Hwin, Hcount.
    rewrite !Z.min_id. split; [reflexivity | f_equal; lia].
  - intros Hx Hy Hlen. unfold hline, vline.
    rewrite !fill_rect_pixel_words. unfold fill_rect_clip. cbn [fst snd].
    destruct (Z.gtb_spec (x + len) (width self)),
             (Z.gtb_spec (y + 1) (height self)),
             (Z.gtb_spec (x + 1) (width self)),
             (Z.gtb_spec (y + len) (height self));
      split; f_equal; lia.
Qed.

Lemma fill_covers_the_screen_witness :
  let self := SmartPlantDisplay_init true 0 in
  window_coordinates (fill self 0) = [0; 319; 0; 239]
  /\ pixel_words (fill self 0) = Z.to_nat 76800
  /\ pixel_words (hline self 300 10 50 0) = Z.to_nat 20.
Proof.
  destruct (fill_covers_the_screen (SmartPlantDisplay_init true 0)
              300 10 50 0) as [[Hwin Hcount] Hlines]; try (cbn; lia).
  destruct Hlines as [Hh _]; try (cbn; lia).
  split; [exact Hwin|]. split; [exact Hcount | exact Hh].
Defined.

(** ** Chip-select discipline *)

Lemma framed_from_app (a b : list bus_op) (selected : bool) :
  framed_from selected a = true ->
  framed_from selected (a ++ b) = framed_from false b.
Proof.
  revert selected. induction a as [|op a IH]; intros selected Ha.
  - cbn in Ha. destruct selected; [discriminate | reflexivity].
  - destruct op, selected; cbn [app framed_from andb negb] in *;
      try discriminate; apply IH; exact Ha.
Qed.

Lemma framed_app (a b : list bus_op) :
  framed a = true -> framed b = true -> framed (a ++ b) = true.
Proof.
  unfold framed. intros Ha Hb. rewrite (framed_from_app a b false Ha).
  exact Hb.
Qed.

Lemma framed_from_stream (data : list Z) (l : list Z) (rest : list bus_op) :
  framed_from true (flat_map (fun _ => [SpiWrite data]) l ++ rest)
  = framed_from true rest.
Proof. induction l as [|k l IH]; [reflexivity | exact IH]. Qed.

Lemma framed_perform (self : SmartPlantDisplay) (call : draw_call) :
  cs self = true -> framed (perform self call) = true.
Proof.
  intros Hcs. destruct call as [x y w h color | x y color];
    cbn [perform].
  - unfold fill_rect. destruct (fill_rect_clip self x y w h) as [w' h'].
    unfold set_window, write_cmd_data, write_cmd, cs_low, cs_high, dc_low,
      dc_high. rewrite Hcs. unfold framed.
    cbn [app framed_from andb negb].
    rewrite framed_from_stream. reflexivity.
  - unfold pixel.
    destruct ((0 <=? x) && (x <? width self) && (0 <=? y)
              && (y <? height self)); [|reflexivity].
    unfold set_window, write_cmd_data, write_cmd, write_data, cs_low,
      cs_high, dc_low, dc_high. rewrite Hcs. reflexivity.
Qed.

(** X5. With a chip-select pin, every renderer call, and every sequence of
    them, keeps the chip-select discipline: select and release alternate,
    every byte is written while the display is selected, and the display
    is released at the end.  Without the pin the same routines write
    without ever selecting. *)
Theorem display_calls_framed (self : SmartPlantDisplay)
  (calls : list draw_call) (x0 y0 x1 y1 : Z) :
  (cs self = true ->
   framed (set_window self x0 y0 x1 y1) = true
   /\ framed (render self calls) = true)
  /\ (cs self = false ->
      ~ In CsOff (render self calls) /\ ~ In CsOn (render self calls)).
Proof.
  split.
  - intros Hcs. split.
    + unfold set_window, write_cmd_data, write_cmd, cs_low, cs_high, dc_low,
        dc_high. rewrite Hcs. reflexivity.
    + induction calls as [|call calls IH]; [reflexivity|].
      cbn [render flat_map]. apply framed_app;
        [apply framed_perform, Hcs | exact IH].
  - intros Hcs.
    assert (Hone : forall call op, In op (perform self call) ->
                                   op <> CsOff /\ op <> CsOn).
    { intros call op Hin. destruct call as [x y w h color | x y color];
        cbn [perform] in Hin.
      - unfold fill_rect in Hin.
        destruct (fill_rect_clip self x y w h) as [w' h'].
        unfold set_window, write_cmd_data, write_cmd, cs_low, cs_high,
          dc_low, dc_high in Hin. rewrite Hcs in Hin.
        cbn [app] in Hin.
        repeat (destruct Hin as [Hin|Hin];
                [subst op; split; discriminate|]).
        apply in_app_or in Hin. destruct Hin as [Hin|Hin];
          [|contradiction].
        apply in_flat_map in Hin. destruct Hin as (k & _ & Hin).
        destruct Hin as [Hin|Hin]; [subst op; split; discriminate|].
        contradiction.
      - unfold pixel in Hin.
        destruct ((0 <=? x) && (x <? width self) && (0 <=? y)
                  && (y <? height self)); [|contradiction].
        unfold set_window, write_cmd_data, write_cmd, write_data, cs_low,
          cs_high, dc_low, dc_high in Hin. rewrite Hcs in Hin.
        cbn [app] in Hin.
        repeat (destruct Hin as [Hin|Hin];
                [subst op; split; discriminate|]).
        contradiction. }
    split; intros Hin; apply in_flat_map in Hin;
      destruct Hin as (call & _ & Hin);
      destruct (Hone call _ Hin) as [Hoff Hon]; congruence.
Qed.

Lemma display_calls_framed_witness :
  framed (render (SmartPlantDisplay_init true 0)
            [CallFillRect 10 10 4 2 0xF800; CallPixel 3 3 0x001F;
             CallPixel 400 3 0x001F]) = true.
Proof.
  destruct (display_calls_framed (SmartPlantDisplay_init true 0)
              [CallFillRect 10 10 4 2 0xF800; CallPixel 3 3 0x001F;
               CallPixel 400 3 0x001F] 0 0 0 0) as [Hwired _].
  destruct Hwired as [_ Hrender]; [reflexivity | exact Hrender].
Defined.

(** * Properties of the renderer *)

Lemma range_from_In (a b k : Z) : In k (range_from a b) <-> a <= k < b.
Proof.
  unfold range_from, range. rewrite in_map_iff. split.
  - intros (j & Hk & Hj). apply in_map_iff in Hj.
    destruct Hj as (m & Hm & Hin). apply in_seq in Hin. lia.
  - intros Hk. exists (k - a). split; [lia|].
    apply in_map_iff. exists (Z.to_nat (k - a)). split; [lia|].
    apply in_seq. lia.
Qed.

Lemma range_In_iff (n k : Z) : In k (range n) <-> 0 <= k < n.
Proof.
  split; [|apply range_In].
  unfold range. rewrite in_map_iff. intros (m & Hm & Hin).
  apply in_seq in Hin. lia.
Qed.

Lemma call_in_box_wider (bx by_ bw bh bx' bw' : Z) (call : draw_call) :
  bx' <= bx -> bx + bw <= bx' + bw' ->
  call_in_box bx by_ bw bh call -> call_in_box bx' by_ bw' bh call.
Proof.
  intros Hl Hr. destruct call as [x y w h color | x y color];
    cbn [call_in_box]; lia.
Qed.

(** ** Seven-segment digits *)

(** The bars of a digit lie in its cell. *)
Lemma draw_digit_calls_in_cell (x y digit size color : Z) :
  0 < size ->
  Forall (call_in_box x y (6 * size) (10 * size))
         (draw_digit_calls x y digit size color).
Proof.
  intros Hsize. unfold draw_digit_calls.
  destruct (Z.leb_spec 0 digit), (Z.leb_spec digit 9); cbn [andb];
    try constructor.
  assert (Hhalf : size * 10 / 2 = size * 5).
  { replace (size * 10) with (size * 5 * 2) by lia.
    apply Z.div_mul. lia. }
  assert (Hmid : 0 <= size / 2 <= size).
  { split; [apply Z.div_pos; lia|].
    apply Z.div_le_upper_bound; lia. }
  rewrite Hhalf. cbv zeta.
  assert (Hcases : digit = 0 \/ digit = 1 \/ digit = 2 \/ digit = 3
                   \/ digit = 4 \/ digit = 5 \/ digit = 6 \/ digit = 7
                   \/ digit = 8 \/ digit = 9) by lia.
  destruct Hcases as [ -> | [ -> | [ -> | [ -> | [ -> | [ -> | [ -> |
                     [ -> | [ -> | -> ] ] ] ] ] ] ] ] ];
    cbn [Z.to_nat Pos.to_nat Pos.iter_op Nat.add nth segments when_lit
         Z.eqb app];
    repeat constructor; lia.
Qed.

(** X6. A digit of scale [size >= 1] paints only bars with positive sides
    inside its cell of [6 * size] by [10 * size] pixels; a value that is no
    decimal digit paints nothing; 8 paints all seven bars and 1 paints
    two. *)
Theorem draw_digit_in_cell (x y digit size color : Z) :
  (0 < size ->
   Forall (call_in_box x y (6 * size) (10 * size))
          (draw_digit_calls x y digit size color))
  /\ (digit < 0 \/ 9 < digit -> draw_digit_calls x y digit size color = [])
  /\ length (draw_digit_calls x y 8 size color) = 7%nat
  /\ length (draw_digit_calls x y 1 size color) = 2%nat.
Proof.
  split; [|split; [|split; reflexivity]].
  - apply draw_digit_calls_in_cell.
  - intros Hout. unfold draw_digit_calls.
    destruct (Z.leb_spec 0 digit), (Z.leb_spec digit 9); cbn [andb];
      try reflexivity; lia.
Qed.

Lemma draw_digit_in_cell_witness :
  Forall (call_in_box 200 15 12 20) (draw_digit_calls 200 15 3 2 0xFFFF).
Proof.
  destruct (draw_digit_in_cell 200 15 3 2 0xFFFF) as [Hcell _].
  apply Hcell. lia.
Defined.

(** ** Numbers *)






(** ** Circles and rounded rectangles *)

Lemma square_le_bound (a r : Z) :
  0 <= r -> a * a <= r * r -> - r <= a <= r.
Proof.
  intros Hr Hsq. split.
  - destruct (Z_le_gt_dec (- r) a) as [Hge|Hlt]; [exact Hge|].
    assert (Hbig : (r + 1) * (r + 1) <= (- a) * (- a))
      by (apply Z.mul_le_mono_nonneg; lia).
    lia.
  - destruct (Z_le_gt_dec a r) as [Hle|Hgt]; [exact Hle|].
    assert (Hbig : (r + 1) * (r + 1) <= a * a)
      by (apply Z.mul_le_mono_nonneg; lia).
    lia.
Qed.

(** X8. [draw_circle] with a radius that is not negative paints exactly
    the lattice points of the closed disc: a pixel call for (px, py) is made
    if and only if [(px - cx)^2 + (py - cy)^2 <= radius^2]; it makes no
    [fill_rect] call; with a negative radius it makes no call. *)
Theorem draw_circle_is_disc (cx cy radius color px py c : Z) :
  (0 <= radius ->
   (In (CallPixel px py c) (draw_circle_calls cx cy radius color)
    <-> c = color
        /\ (px - cx) * (px - cx) + (py - cy) * (py - cy)
           <= radius * radius))
  /\ (forall x y w h k,
        ~ In (CallFillRect x y w h k) (draw_circle_calls cx cy radius color))
  /\ (radius < 0 -> draw_circle_calls cx cy radius color = []).
Proof.
  split; [|split].
  - intros Hr. unfold draw_circle_calls. split.
    + intros Hin. apply in_flat_map in Hin. destruct Hin as (dx & Hdx & Hin).
      apply in_flat_map in Hin. destruct Hin as (dy & Hdy & Hin).
      destruct (Z.leb_spec (dx * dx + dy * dy) (radius * radius));
        [|contradiction].
      destruct Hin as [Hin|[]]. injection Hin as Hx Hy Hc.
      subst px py c. split; [reflexivity|].
      replace (cx + dx - cx) with dx by lia.
      replace (cy + dy - cy) with dy by lia. assumption.
    + intros [-> Hdisc].
      pose proof (Z.square_nonneg (px - cx)) as Hsx.
      pose proof (Z.square_nonneg (py - cy)) as Hsy.
      assert (Hdx : - radius <= px - cx <= radius)
        by (apply square_le_bound; [exact Hr | lia]).
      assert (Hdy : - radius <= py - cy <= radius)
        by (apply square_le_bound; [exact Hr | lia]).
      apply in_flat_map. exists (px - cx). split.
      { apply range_from_In. lia. }
      apply in_flat_map. exists (py - cy). split.
      { apply range_from_In. lia. }
      destruct (Z.leb_spec ((px - cx) * (px - cx) + (py - cy) * (py - cy))
                           (radius * radius)); [|lia].
      left. f_equal; lia.
  - intros x y w h k Hin. unfold draw_circle_calls in Hin.
    apply in_flat_map in Hin. destruct Hin as (dx & _ & Hin).
    apply in_flat_map in Hin. destruct Hin as (dy & _ & Hin).
    destruct (dx * dx + dy * dy <=? radius * radius);
      [destruct Hin as [Hin|[]]; discriminate | contradiction].
  - intros Hneg. unfold draw_circle_calls, range_from, range.
    replace (Z.to_nat (radius + 1 - - radius)) with O by lia.
    reflexivity.
Qed.

Lemma draw_circle_is_disc_witness :
  In (CallPixel 103 96 7) (draw_circle_calls 100 100 5 7)
  /\ ~ In (CallPixel 104 96 7) (draw_circle_calls 100 100 5 7).
Proof.
  destruct (draw_circle_is_disc 100 100 5 7 103 96 7) as [Hin _].
  destruct (draw_circle_is_disc 100 100 5 7 104 96 7) as [Hout _].
  split.
  - apply Hin; [lia|]. split; [reflexivity | lia].
  - intros Hpaint. apply Hout in Hpaint; lia.
Defined.

(** X9. [draw_rounded_rect] with a radius of at least 1 and sides longer
    than twice the radius paints nothing outside the rectangle it is given:
    its three bars have positive sides and lie inside it, and so does every
    corner pixel. *)
Theorem draw_rounded_rect_in_box (x y w h radius color : Z) :
  0 < radius -> 2 * radius < w -> 2 * radius < h ->
  Forall (call_in_box x y w h) (draw_rounded_rect_calls x y w h radius color).
Proof.
  intros Hr Hw Hh. unfold draw_rounded_rect_calls.
  apply Forall_app. split.
  - repeat constructor; lia.
  - apply Forall_forall. intros call Hin.
    apply in_flat_map in Hin. destruct Hin as (i & Hi & Hin).
    apply in_flat_map in Hin. destruct Hin as (j & Hj & Hin).
    apply range_In_iff in Hi. apply range_In_iff in Hj.
    destruct (i * i + j * j <=? radius * radius); [|contradiction].
    cbn [In] in Hin.
    destruct Hin as [<-|[<-|[<-|[<-|[]]]]]; cbn [call_in_box]; lia.
Qed.

Lemma draw_rounded_rect_in_box_witness :
  Forall (call_in_box 20 50 60 40) (draw_rounded_rect_calls 20 50 60 40 8 0).
Proof. apply draw_rounded_rect_in_box; lia. Defined.

(** * Further properties of the touch digitizer *)

Lemma lor_shiftl_byte (hi lo : Z) :
  0 <= lo < 256 -> Z.lor (Z.shiftl hi 8) lo = 256 * hi + lo.
Proof.
  intros Hlo.
  assert (Hdisjoint : Z.land (Z.shiftl hi 8) lo = 0).
  { apply Z.bits_inj'. intros n Hn.
    rewrite Z.land_spec, Z.bits_0, Z.shiftl_spec by lia.
    destruct (Z_lt_ge_dec n 8) as [Hlow|Hhigh].
    - rewrite Z.testbit_neg_r by lia. reflexivity.
    - assert (Hbit : Z.testbit lo n = false).
      { apply Z.testbit_false; [lia|].
        rewrite Z.div_small; [reflexivity|].
        split; [lia|].
        apply Z.lt_le_trans with (2 ^ 8); [cbn; lia|].
        apply Z.pow_le_mono_r; lia. }
      rewrite Hbit. apply andb_false_r. }
  rewrite <- (Z.add_0_r (Z.lor _ _)), <- Hdisjoint, Z.add_lor_land.
  rewrite Z.shiftl_mul_pow2 by lia. change (2 ^ 8) with 256. lia.
Qed.

(** X10. [read_touch_raw] always returns a 12-bit value.  For a reply of
    two bytes it is bits 14..3 of the 16-bit big-endian word; any other
    reply gives 0.  It issues exactly one transaction, which keeps the
    chip-select discipline. *)
Theorem read_touch_raw_12_bit (cmd : Z) (bus : spi_bus) :
  0 <= fst (read_touch_raw cmd bus) < 4096
  /\ (forall b0 b1 rest, miso bus = [b0; b1] :: rest ->
      0 <= b0 < 256 -> 0 <= b1 < 256 ->
      fst (read_touch_raw cmd bus) = (256 * b0 + b1) / 8 mod 4096)
  /\ (forall reply rest, miso bus = reply :: rest ->
      length reply <> 2%nat -> fst (read_touch_raw cmd bus) = 0)
  /\ wire (snd (read_touch_raw cmd bus)) = wire bus ++ transaction cmd
  /\ framed (transaction cmd) = true.
Proof.
  assert (Hmask : forall v, 0 <= Z.land v 0x0FFF < 4096).
  { intros v. change 0x0FFF with (Z.ones 12).
    rewrite Z.land_ones by lia. apply Z.mod_pos_bound. cbn. lia. }
  split; [|split; [|split; [|split]]].
  - unfold read_touch_raw, bind, issue, spi_read, ret. cbn [miso wire].
    destruct (miso bus) as [|reply rest]; cbn [fst].
    + change (repeat 0 (Z.to_nat 2)) with [0; 0]. apply Hmask.
    + destruct reply as [|b0 [|b1 [|b2 reply]]]; try lia; apply Hmask.
  - intros b0 b1 rest Hreply Hb0 Hb1.
    unfold read_touch_raw, bind, issue, spi_read, ret. cbn [miso wire].
    rewrite Hreply. cbn [fst].
    rewrite (lor_shiftl_byte b0 b1 Hb1).
    change 0x0FFF with (Z.ones 12).
    rewrite Z.land_ones, Z.shiftr_div_pow2 by lia. reflexivity.
  - intros reply rest Hreply Hlen.
    unfold read_touch_raw, bind, issue, spi_read, ret. cbn [miso wire].
    rewrite Hreply. cbn [fst].
    destruct reply as [|b0 [|b1 [|b2 reply]]]; try reflexivity.
    cbn in Hlen. congruence.
  - exact (proj1 (read_touch_raw_wire cmd bus)).
  - reflexivity.
Qed.

Lemma read_touch_raw_12_bit_witness :
  fst (read_touch_raw TOUCH_CMD_X (mkBus [[0x3E; 0x80]] [])) = 2000.
Proof.
  destruct (read_touch_raw_12_bit TOUCH_CMD_X (mkBus [[0x3E; 0x80]] []))
    as (_ & Hword & _).
  rewrite (Hword 0x3E 0x80 []); [reflexivity | reflexivity | lia | lia].
Defined.

Lemma sum_in_band (values : list Z) :
  Forall (fun v => 100 < v < 4000) values ->
  101 * Z.of_nat (length values) <= fold_right Z.add 0 values
  <= 3999 * Z.of_nat (length values).
Proof.
  induction 1 as [|v values Hv _ IH]; cbn [fold_right length]; lia.
Qed.

Lemma integer_mean_in_band (values : list Z) :
  values <> [] -> Forall (fun v => 100 < v < 4000) values ->
  100 < integer_mean values < 4000.
Proof.
  intros Hne Hband. pose proof (sum_in_band values Hband) as Hsum.
  unfold integer_mean.
  assert (Hlen : 0 < Z.of_nat (length values))
    by (destruct values; [congruence | cbn [length]; lia]).
  split.
  - apply Z.lt_le_trans with 101; [lia|].
    apply Z.div_le_lower_bound; lia.
  - apply Z.le_lt_trans with 3999; [|lia].
    apply Z.div_le_upper_bound; lia.
Qed.

Lemma surviving_in_band (pairs : list (Z * Z)) :
  Forall (fun v => 100 < v < 4000) (map fst (surviving pairs))
  /\ Forall (fun v => 100 < v < 4000) (map snd (surviving pairs)).
Proof.
  unfold surviving. split; apply Forall_map, Forall_forall; intros p Hin;
    apply filter_In in Hin; destruct Hin as [_ Hkeep];
    unfold in_band in Hkeep; rewrite !andb_true_iff, !Z.ltb_lt in Hkeep;
    lia.
Qed.

(** With the interrupt line low, the result of [get_touch] is the
    spec-worded poll of the three pairs read. *)
Lemma get_touch_result (self : TouchController) (irq_state : Z)
  (bus : spi_bus) :
  irq_state <> 1 ->
  fst (get_touch self irq_state bus)
  = poll_spec self (fst (read_pairs 3 bus)).
Proof.
  intros Hirq. unfold get_touch. apply Z.eqb_neq in Hirq. rewrite Hirq.
  unfold bind. rewrite sample_loop_surviving. cbv zeta.
  unfold poll_spec, integer_mean. rewrite !Z.add_0_l.
  destruct (surviving (fst (read_pairs 3 bus))) as [|p kept].
  - reflexivity.
  - assert (Hpos : (Z.of_nat (length (p :: kept)) =? 0) = false)
      by (apply Z.eqb_neq; cbn [length]; lia).
    rewrite Hpos, !length_map. reflexivity.
Qed.

(** X11. Whenever [get_touch] of the constructed controller returns a
    point, the interrupt line was not 1, at least one of the three pairs
    read lies in the band, the point is the calibration of two averages that
    lie strictly between 100 and 4000, and it is a pixel of the 320x240
    screen.  On an idle bus (every read gives zeros) it returns no point. *)
Theorem get_touch_point_on_screen (irq_state : Z) (bus : spi_bus)
  (x y : Z) :
  (fst (get_touch TouchController_init irq_state bus) = Some (x, y) ->
   irq_state <> 1
   /\ surviving (fst (read_pairs 3 bus)) <> []
   /\ (exists x_avg y_avg,
         100 < x_avg < 4000 /\ 100 < y_avg < 4000
         /\ (x, y) = calibrate TouchController_init x_avg y_avg)
   /\ 0 <= x <= 319 /\ 0 <= y <= 239)
  /\ (miso bus = [] ->
      fst (get_touch TouchController_init irq_state bus) = None).
Proof.
  split.
  - intros Hpoint.
    assert (Hirq : irq_state <> 1).
    { intros ->. discriminate Hpoint. }
    rewrite (get_touch_result _ _ _ Hirq) in Hpoint.
    unfold poll_spec in Hpoint.
    destruct (surviving_in_band (fst (read_pairs 3 bus))) as [Hxs Hys].
    destruct (surviving (fst (read_pairs 3 bus))) as [|p kept] eqn:Hkept;
      [discriminate|].
    injection Hpoint as Hx Hy.
    assert (Hxa : 100 < integer_mean (map fst (p :: kept)) < 4000)
      by (apply integer_mean_in_band; [discriminate | exact Hxs]).
    assert (Hya : 100 < integer_mean (map snd (p :: kept)) < 4000)
      by (apply integer_mean_in_band; [discriminate | exact Hys]).
    split; [exact Hirq|]. split; [discriminate|]. split.
    + exists (integer_mean (map fst (p :: kept))),
             (integer_mean (map snd (p :: kept))).
      split; [exact Hxa|]. split; [exact Hya|].
      subst x y. reflexivity.
    + subst x y. unfold to_screen. lia.
  - intros Hidle. destruct bus as [replies ops]. cbn [miso] in Hidle.
    subst replies. unfold get_touch.
    destruct (irq_state =? 1); reflexivity.
Qed.

Lemma get_touch_point_on_screen_witness :
  surviving
    (fst (read_pairs 3
            (mkBus [[0x3E; 0x80]; [0x5D; 0xC0]; [0x00; 0x00];
                    [0x5D; 0xC0]; [0x3F; 0x00]; [0x5E; 0x00]] []))) <> []
  /\ 0 <= 160 <= 319 /\ 0 <= 186 <= 239.
Proof.
  destruct (get_touch_point_on_screen 0
              (mkBus [[0x3E; 0x80]; [0x5D; 0xC0]; [0x00; 0x00];
                      [0x5D; 0xC0]; [0x3F; 0x00]; [0x5E; 0x00]] [])
              160 186) as [Hpoint _].
  destruct Hpoint as (_ & Hkept & _ & Hx & Hy); [vm_compute; reflexivity|].
  split; [exact Hkept|]. split; [exact Hx | exact Hy].
Defined.

(** * Further properties of the motion latch *)

(** A poll without motion made while the timeout has not run out plays
    nothing and leaves the motion clock, the timeout and the punishment
    latch as they are. *)
Lemma read_motion_sensor_early (t : Z) (self : SmartPlantDisplay) :
  ticks_diff t (last_motion_time self) <= motion_timeout self ->
  let r := read_motion_sensor t 0 self in
  snd r = []
  /\ last_motion_time (snd (fst r)) = last_motion_time self
  /\ motion_timeout (snd (fst r)) = motion_timeout self
  /\ audio_played (snd (fst r)) = audio_played self.
Proof.
  intros Hearly. unfold read_motion_sensor. cbn [Z.eqb].
  cbn [last_motion_check last_motion_time motion_timeout audio_played
       set_reward_played set_last_motion_check].
  destruct (ticks_diff t (last_motion_check self) >? 5000);
    [|repeat split; reflexivity].
  destruct (Z.gtb_spec (ticks_diff t (last_motion_time self))
                       (motion_timeout self)); [lia|].
  repeat split; reflexivity.
Qed.

(** What a poll that sees motion leaves behind. *)
Lemma read_motion_sensor_motion (t : Z) (self : SmartPlantDisplay) :
  let r := read_motion_sensor t 1 self in
  fst (fst r) = true
  /\ last_motion_time (snd (fst r)) = t
  /\ motion_timeout (snd (fst r)) = motion_timeout self
  /\ audio_played (snd (fst r)) = false
  /\ reward_played (snd (fst r)) = true
  /\ punishments (snd r) = O.
Proof.
  unfold read_motion_sensor. cbn [Z.eqb Pos.eqb].
  cbn [reward_played set_audio_played set_last_motion_time].
  destruct (reward_played self) eqn:Hplayed; cbn [negb fst snd];
    repeat split; try reflexivity; exact Hplayed.
Qed.

(** X12. After a poll that saw motion at time [t], polls without motion
    made while at most [motion_timeout] ms have elapsed since [t] invoke no
    audio routine at all, whatever the state was before. *)
Theorem no_cue_before_timeout (self : SmartPlantDisplay) (t : Z)
  (polls : list (Z * Z)) :
  Forall (fun p => snd p = 0
                   /\ ticks_diff (fst p) t <= motion_timeout self) polls ->
  snd (poll_motion polls (snd (fst (read_motion_sensor t 1 self)))) = [].
Proof.
  intros Hpolls.
  destruct (read_motion_sensor_motion t self) as (_ & Hlm & Hto & _).
  cbv zeta in Hlm, Hto. revert Hlm Hto.
  generalize (snd (fst (read_motion_sensor t 1 self))). intros s.
  revert s. induction Hpolls as [|[t' m] polls [Hm Ht'] _ IH];
    intros s Hlm Hto; [reflexivity|].
  cbn [fst snd] in Hm, Ht'. subst m. rewrite poll_motion_cons. cbn [snd].
  destruct (read_motion_sensor_early t' s) as (Hnone & Hlm' & Hto' & _).
  { rewrite Hlm, Hto. exact Ht'. }
  cbv zeta in Hnone, Hlm', Hto'. rewrite Hnone. cbn [app].
  apply IH; congruence.
Qed.

Lemma no_cue_before_timeout_witness :
  snd (poll_motion [(6000, 0); (20000, 0); (31000, 0)]
         (snd (fst (read_motion_sensor 1000 1
                      (SmartPlantDisplay_init true 0))))) = [].
Proof.
  apply (no_cue_before_timeout (SmartPlantDisplay_init true 0) 1000
           [(6000, 0); (20000, 0); (31000, 0)]).
  repeat constructor; vm_compute; discriminate.
Defined.

(** Polls without motion from an armed punishment latch, with one poll
    among them that passes the gate and the timeout test: one
    punishment. *)
Lemma poll_motion_fires_once (self : SmartPlantDisplay)
  (pre post : list (Z * Z)) (t : Z) :
  Forall quiet pre -> Forall quiet post -> audio_played self = false ->
  ticks_diff t (last_motion_check (fst (poll_motion pre self))) > 5000 ->
  ticks_diff t (last_motion_time self) > motion_timeout self ->
  punishments (snd (poll_motion (pre ++ (t, 0) :: post) self)) = 1%nat.
Proof.
  intros Hpre Hpost Harmed Hgate Hlate.
  pose proof (poll_motion_quiet _ self Hpre) as Hp.
  cbv zeta in Hp. destruct Hp as (Hlm & Hto & _ & Hc1).
  rewrite Harmed in Hc1. cbn [Nat.b2n] in Hc1.
  rewrite poll_motion_app, poll_motion_cons. cbn [snd].
  set (s1 := fst (poll_motion pre self)) in *.
  rewrite <- Hlm, <- Hto in Hlate.
  pose proof (read_motion_sensor_fires t s1 Hgate Hlate) as Hfire.
  pose proof (read_motion_sensor_quiet t s1) as Hstep.
  cbv zeta in Hstep. destruct Hstep as (_ & _ & _ & _ & _ & Hc2).
  pose proof (poll_motion_quiet _ (snd (fst (read_motion_sensor t 0 s1)))
                Hpost) as Hq.
  cbv zeta in Hq. destruct Hq as (_ & _ & _ & Hc3).
  rewrite !punishments_app.
  rewrite Hfire in Hc2, Hc3. cbn [Nat.b2n] in Hc2, Hc3.
  destruct (audio_played s1),
    (audio_played
       (fst (poll_motion post (snd (fst (read_motion_sensor t 0 s1))))));
    cbn [Nat.b2n] in *; lia.
Qed.

(** X13. Motion re-arms the punishment latch.  Whatever the state, also
    right after a punishment, a poll that sees motion at [t] followed by
    polls without motion, one of which passes the 5000 ms gate with more
    than [motion_timeout] elapsed since [t], invokes
    [play_punishment_sound] exactly once. *)
Theorem punishment_rearmed_by_motion (self : SmartPlantDisplay)
  (t t' : Z) (pre post : list (Z * Z)) :
  Forall quiet pre -> Forall quiet post ->
  ticks_diff t'
    (last_motion_check (fst (poll_motion ((t, 1) :: pre) self))) > 5000 ->
  ticks_diff t' t > motion_timeout self ->
  punishments (snd (poll_motion ((t, 1) :: pre ++ (t', 0) :: post) self))
  = 1%nat.
Proof.
  intros Hpre Hpost Hgate Hlate.
  destruct (read_motion_sensor_motion t self)
    as (_ & Hlm & Hto & Harmed & _ & Hnone).
  cbv zeta in Hlm, Hto, Harmed, Hnone.
  rewrite poll_motion_cons in Hgate. cbn [fst] in Hgate.
  rewrite poll_motion_cons. cbn [snd].
  rewrite punishments_app, Hnone.
  apply poll_motion_fires_once; try assumption.
  rewrite Hlm, Hto. exact Hlate.
Qed.

Lemma punishment_rearmed_by_motion_witness :
  let fired :=
    fst (poll_motion [(31000, 0)] (SmartPlantDisplay_init true 0)) in
  audio_played fired = true
  /\ punishments
       (snd (poll_motion ((40000, 1) :: [(41000, 0)]
                          ++ (71000, 0) :: [(80000, 0)]) fired)) = 1%nat.
Proof.
  split; [reflexivity|].
  apply (punishment_rearmed_by_motion
           (fst (poll_motion [(31000, 0)] (SmartPlantDisplay_init true 0)))
           40000 71000 [(41000, 0)] [(80000, 0)]).
  - repeat constructor.
  - repeat constructor.
  - vm_compute. reflexivity.
  - vm_compute. reflexivity.
Defined.

(** * Further properties of the sensor update *)

(** X14. Without a DHT11 reading [update_sensor_data] never returns: it
    raises [NameError] on the undefined name [random].  By then the motion
    sensor has been polled, with whatever audio routine that invoked, but
    the sensor record and the last light value are as before. *)
Theorem update_sensor_data_without_dht (light_value raw t m : Z)
  (self : SmartPlantDisplay) :
  exists self',
    update_sensor_data light_value raw None t m self
    = NameError self' (snd (read_motion_sensor t m self))
    /\ sensor_data self' = sensor_data self
    /\ last_light_value self' = last_light_value self
    /\ last_motion_check self'
       = last_motion_check (snd (fst (read_motion_sensor t m self)))
    /\ audio_played self'
       = audio_played (snd (fst (read_motion_sensor t m self))).
Proof.
  unfold update_sensor_data.
  assert (Hframe : sensor_data (snd (fst (read_motion_sensor t m self)))
                   = sensor_data self
                   /\ last_light_value
                        (snd (fst (read_motion_sensor t m self)))
                      = last_light_value self).
  { unfold read_motion_sensor.
    repeat match goal with
           | |- context [if ?c then _ else _] => destruct c
           end; split; reflexivity. }
  destruct (read_motion_sensor t m self) as [[res s1] calls].
  cbn [fst snd] in *. destruct Hframe as [Hdata Hlight].
  destruct (Z.abs (light_value - last_light_value s1) >? 5);
    eexists; (split; [reflexivity|]); cbn; repeat split; assumption.
Qed.

(** X15. The health score takes one of six values, 100, 85, 80, 70, 65 or
    50; it is never below 50, so the clamp to [0, 100] never changes it, and
    the score a returning [update_sensor_data] stores is one of them. *)
Theorem health_score_values (light_value raw t m : Z) (temp hum : Q)
  (self : SmartPlantDisplay) :
  In (health_score temp light_value hum) [100; 85; 80; 70; 65; 50]
  /\ 50 <= health_score temp light_value hum <= 100
  /\ (exists self' calls,
        update_sensor_data light_value raw (Some (temp, hum)) t m self
        = Returned self' calls
        /\ 50 <= plant_health (sensor_data self') <= 100)
  /\ (health_score temp light_value hum = 50 <->
      within 18 28 temp = false /\ light_value < 300
      /\ within 40 80 hum = false).
Proof.
  assert (Hvalues : forall a l b,
            In (health_score a l b) [100; 85; 80; 70; 65; 50]
            /\ 50 <= health_score a l b <= 100).
  { intros a l b. unfold health_score, Qltb, Qgtb.
    destruct (Qle_bool 18 a), (Qle_bool a 28), (l <? 300),
             (Qle_bool 40 b), (Qle_bool b 80); cbn; split; try lia; tauto. }
  split; [apply Hvalues|]. split; [apply Hvalues|]. split.
  - destruct (update_sensor_data_returns light_value raw temp hum t m self)
      as (self' & calls & Hrun & Hscore & _).
    exists self', calls. split; [exact Hrun|].
    rewrite Hscore. apply Hvalues.
  - unfold health_score, within, Qltb, Qgtb.
    destruct (Z.ltb_spec light_value 300);
      destruct (Qle_bool 18 temp), (Qle_bool temp 28),
               (Qle_bool 40 hum), (Qle_bool hum 80); cbn;
      split; try lia; try tauto; intros (? & ? & ?);
      try discriminate; lia.
Qed.

Lemma health_score_values_witness : health_score 10 100 90 = 50.
Proof.
  destruct (health_score_values 100 0 0 0 10 90
              (SmartPlantDisplay_init true 0)) as (_ & _ & _ & Hworst).
  apply Hworst. split; [reflexivity | split; [lia | reflexivity]].
Defined.

(** * Further properties of the screen controller *)

(** The hit tests never lead outside the three screens; the only way onto
    the detail screen is a widget of the main screen, and every touch on
    the detail screen leaves it. *)
Lemma touch_dispatch_screens (x y : Z) (self : SmartPlantDisplay) :
  let self' := touch_dispatch x y self in
  (current_screen self' = current_screen self
   \/ current_screen self' = 0 \/ current_screen self' = 2
   \/ (current_screen self' = 1 /\ current_screen self = 0
       /\ existsb (fun r => contains r x y) main_widgets = true))
  /\ (current_screen self = 1 -> current_screen self' <> 1).
Proof.
  cbv zeta. unfold touch_dispatch. cbv zeta.
  destruct (apply_presets_frame (enumerate presets) x self)
    as (_ & _ & Hcur & _).
  unfold main_widgets, contains. cbn [existsb rx0 ry0 rx1 ry1].
  split.
  - split_tests; project_fields; rewrite ?Hcur; try tauto.
    all: right; right; right; repeat split; try assumption;
      repeat match goal with
             | |- context [?a <=? ?b] => destruct (Z.leb_spec a b); try lia
             end; reflexivity.
  - intros Hdetail. rewrite Hdetail.
    split_tests; project_fields; lia.
Qed.

(** X16. After construction and any sequence of touches the screen shown
    is 0, 1 or 2.  In such a state a touch leads onto the detail screen only
    from a widget of the main screen, and a touch on the detail screen
    always leaves it. *)
Theorem screens_reachable (cs_pin : bool) (boot t x y : Z)
  (touches : list (Z * Z * Z)) (self : SmartPlantDisplay) :
  (let reached :=
     handle_touches touches (SmartPlantDisplay_init cs_pin boot) in
   current_screen reached = 0 \/ current_screen reached = 1
   \/ current_screen reached = 2)
  /\ (current_screen self <> 1 ->
      current_screen (handle_touch t x y self) = 1 ->
      current_screen self = 0
      /\ existsb (fun r => contains r x y) main_widgets = true)
  /\ (current_screen self = 1 ->
      current_screen (handle_touch t x y self) <> 1).
Proof.
  assert (Hstep : forall s t' x' y',
            let s' := handle_touch t' x' y' s in
            (current_screen s' = current_screen s
             \/ current_screen s' = 0 \/ current_screen s' = 2
             \/ (current_screen s' = 1 /\ current_screen s = 0
                 /\ existsb (fun r => contains r x' y') main_widgets = true))
            /\ (current_screen s = 1 -> current_screen s' <> 1)).
  { intros s t' x' y'. cbv zeta.
    destruct (handle_touch_dispatch t' x' y' s) as (Hcur & _).
    cbv zeta in Hcur. rewrite Hcur.
    exact (touch_dispatch_screens x' y'
             (set_last_touch_time t' (set_manual_mode true s))). }
  split; [|split].
  - cbv zeta.
    assert (Hall : forall l s,
              (current_screen s = 0 \/ current_screen s = 1
               \/ current_screen s = 2) ->
              current_screen (handle_touches l s) = 0
              \/ current_screen (handle_touches l s) = 1
              \/ current_screen (handle_touches l s) = 2).
    { induction l as [|[[t' x'] y'] l IH]; intros s Hs; [exact Hs|].
      cbn [handle_touches]. apply IH.
      destruct (Hstep s t' x' y') as [Hmove _]. cbv zeta in Hmove. lia. }
    apply Hall. left. reflexivity.
  - intros Hnot Hdetail. destruct (Hstep self t x y) as [Hmove _].
    cbv zeta in Hmove. rewrite Hdetail in Hmove.
    destruct Hmove as [H|[H|[H|H]]]; try lia; try congruence.
    destruct H as (_ & Hmain & Hhit). split; assumption.
  - intros Hdetail. exact (proj2 (Hstep self t x y) Hdetail).
Qed.

Lemma screens_reachable_witness :
  current_screen
    (handle_touch 500 50 50
       (handle_touch 100 50 50 (SmartPlantDisplay_init true 0))) <> 1.
Proof.
  destruct (screens_reachable true 0 500 50 50 []
              (handle_touch 100 50 50 (SmartPlantDisplay_init true 0)))
    as (_ & _ & Hleave).
  apply Hleave. reflexivity.
Defined.

(** The hit tests leave every field but the screen, the timeout pair and
    the redraw flag alone, never clear the redraw flag, and change the
    timeout pair only on the Settings screen above the navigation bar. *)
Lemma touch_dispatch_effects (x y : Z) (self : SmartPlantDisplay) :
  let self' := touch_dispatch x y self in
  (width self' = width self /\ height self' = height self
   /\ cs self' = cs self /\ last_update self' = last_update self
   /\ last_touch_time self' = last_touch_time self
   /\ manual_mode self' = manual_mode self
   /\ last_drawn_screen self' = last_drawn_screen self
   /\ last_light_value self' = last_light_value self
   /\ data_needs_update self' = data_needs_update self
   /\ last_motion_time self' = last_motion_time self
   /\ last_motion_check self' = last_motion_check self
   /\ audio_played self' = audio_played self
   /\ reward_played self' = reward_played self
   /\ last_displayed_values self' = last_displayed_values self
   /\ sensor_data self' = sensor_data self)
  /\ (screen_needs_redraw self = true -> screen_needs_redraw self' = true)
  /\ (current_screen self <> 2 \/ in_navigation_bar self y = true ->
      motion_timeout_seconds self' = motion_timeout_seconds self
      /\ motion_timeout self' = motion_timeout self).
Proof.
  assert (Hloop : forall ps s,
            let s' := apply_presets ps x s in
            (width s' = width s /\ height s' = height s
             /\ cs s' = cs s /\ last_update s' = last_update s
             /\ last_touch_time s' = last_touch_time s
             /\ manual_mode s' = manual_mode s
             /\ last_drawn_screen s' = last_drawn_screen s
             /\ last_light_value s' = last_light_value s
             /\ data_needs_update s' = data_needs_update s
             /\ last_motion_time s' = last_motion_time s
             /\ last_motion_check s' = last_motion_check s
             /\ audio_played s' = audio_played s
             /\ reward_played s' = reward_played s
             /\ last_displayed_values s' = last_displayed_values s
             /\ sensor_data s' = sensor_data s)
            /\ (screen_needs_redraw s = true ->
                screen_needs_redraw s' = true)).
  { induction ps as [|[i preset] ps IH]; intros s; cbv zeta;
      cbn [apply_presets]; [repeat split; trivial|].
    destruct ((20 + i * 70 <=? x) && (x <=? 20 + i * 70 + 60));
      [repeat split; trivial | apply IH]. }
  cbv zeta. unfold touch_dispatch, in_navigation_bar. cbv zeta.
  specialize (Hloop (enumerate presets) self). cbv zeta in Hloop.
  revert Hloop.
  generalize (apply_presets (enumerate presets) x self).
  intros looped (Hsame & Hflag).
  split; [|split].
  - repeat match goal with
           | |- context [if ?c then _ else _] => destruct c
           end; first [exact Hsame | repeat split; reflexivity].
  - intros Hset.
    repeat match goal with
           | |- context [if ?c then _ else _] => destruct c
           end; first [exact (Hflag Hset) | exact Hset | reflexivity].
  - intros [Hother|Hnav].
    + destruct (y >=? height self - 40);
        [destruct (x <? width self / 2); split; reflexivity|].
      destruct (current_screen self =? 0);
        [repeat match goal with
                | |- context [if ?c then _ else _] => destruct c
                end; split; reflexivity|].
      destruct (current_screen self =? 1); [split; reflexivity|].
      destruct (Z.eqb_spec (current_screen self) 2);
        [contradiction | split; reflexivity].
    + rewrite Hnav. destruct (x <? width self / 2); split; reflexivity.
Qed.

(** X17. [handle_touch] touches nothing but the mode, the touch clock, the
    screen, the timeout pair and the redraw flag: the geometry, the sensor
    record, the displayed values and every motion field keep their values.
    It never clears [screen_needs_redraw], and it changes the timeout only
    for a touch on the Settings screen above the navigation bar. *)
Theorem handle_touch_effects (t x y : Z) (self : SmartPlantDisplay) :
  let self' := handle_touch t x y self in
  (width self' = width self /\ height self' = height self
   /\ sensor_data self' = sensor_data self
   /\ last_displayed_values self' = last_displayed_values self
   /\ data_needs_update self' = data_needs_update self
   /\ last_light_value self' = last_light_value self
   /\ last_motion_time self' = last_motion_time self
   /\ last_motion_check self' = last_motion_check self
   /\ audio_played self' = audio_played self
   /\ reward_played self' = reward_played self)
  /\ (screen_needs_redraw self = true -> screen_needs_redraw self' = true)
  /\ (current_screen self <> 2 \/ in_navigation_bar self y = true ->
      motion_timeout_seconds self' = motion_timeout_seconds self
      /\ motion_timeout self' = motion_timeout self).
Proof.
  cbv zeta.
  destruct (touch_dispatch_effects x y
              (set_last_touch_time t (set_manual_mode true self)))
    as (Hsame & Hflag & Htimeout).
  cbv zeta in Hsame, Hflag, Htimeout.
  destruct Hsame as (Hw & Hh & _ & _ & _ & _ & _ & Hll & Hdn & Hlm & Hlc
                     & Hap & Hrp & Hdv & Hsd).
  destruct (handle_touch_dispatch t x y self)
    as (_ & Hsec & Hms & _ & _ & Hredraw).
  cbv zeta in Hsec, Hms, Hredraw.
  split; [|split].
  - unfold handle_touch. cbv zeta.
    destruct (negb (current_screen self =? current_screen _));
      project_fields; repeat split; assumption.
  - intros Hset. rewrite Hredraw, (Hflag Hset). apply orb_true_r.
  - intros Hwhere. rewrite Hsec, Hms. apply Htimeout. exact Hwhere.
Qed.

Lemma handle_touch_effects_witness :
  let self := SmartPlantDisplay_init true 0 in
  screen_needs_redraw (handle_touch 100 5 5 self) = true
  /\ motion_timeout_seconds (handle_touch 100 30 60 self) = 30.
Proof.
  destruct (handle_touch_effects 100 5 5 (SmartPlantDisplay_init true 0))
    as (_ & Hflag & _).
  destruct (handle_touch_effects 100 30 60 (SmartPlantDisplay_init true 0))
    as (_ & _ & Htimeout).
  split; [apply Hflag; reflexivity|].
  destruct Htimeout as [Hsec _]; [left; discriminate | exact Hsec].
Defined.

Lemma touch_dispatch_stays_on_settings (x y : Z) (self : SmartPlantDisplay) :
  current_screen self = 2 -> in_navigation_bar self y = false ->
  current_screen (touch_dispatch x y self) = 2.
Proof.
  intros Hscreen Hnav. unfold touch_dispatch. cbv zeta.
  unfold in_navigation_bar in Hnav. rewrite Hnav, Hscreen.
  destruct (apply_presets_frame (enumerate presets) x self)
    as (_ & _ & Hcur & _).
  cbn [Z.eqb Pos.eqb].
  repeat match goal with
         | |- context [if ?c then _ else _] => destruct c
         end; project_fields; congruence.
Qed.

Lemma handle_touch_geometry (t x y : Z) (self : SmartPlantDisplay) :
  width (handle_touch t x y self) = width self
  /\ height (handle_touch t x y self) = height self.
Proof.
  destruct (touch_dispatch_frame x y
              (set_last_touch_time t (set_manual_mode true self)))
    as (_ & _ & Hw & Hh).
  unfold handle_touch. cbv zeta.
  destruct (negb (current_screen self =? current_screen _));
    project_fields; split; assumption.
Qed.

(** X18. On the Settings screen of the 240-row display, pressing +10 s and
    then -10 s leaves the timeout at [max 5 (min 300 (s + 10) - 10)]: the
    value it had when that was at most 290, and 290 when it was above.
    Pressing -10 s and then +10 s restores every value from 15 up. *)
Theorem plus_minus_ten (self : SmartPlantDisplay)
  (t1 t2 xp yp xm ym : Z) :
  current_screen self = 2 -> height self = 240 ->
  5 <= motion_timeout_seconds self <= 300 ->
  contains button_plus10 xp yp = true ->
  contains button_minus10 xm ym = true ->
  let s := motion_timeout_seconds self in
  motion_timeout_seconds
    (handle_touch t2 xm ym (handle_touch t1 xp yp self))
  = Z.max 5 (Z.min 300 (s + 10) - 10)
  /\ (s <= 290 ->
      motion_timeout_seconds
        (handle_touch t2 xm ym (handle_touch t1 xp yp self)) = s)
  /\ (15 <= s ->
      motion_timeout_seconds
        (handle_touch t2 xp yp (handle_touch t1 xm ym self)) = s).
Proof.
  intros Hscreen Hheight Hrange Hplus Hminus. cbv zeta.
  assert (Hpress : forall s0 t' x' y',
            current_screen s0 = 2 -> height s0 = 240 ->
            5 <= motion_timeout_seconds s0 <= 300 ->
            y' < 200 ->
            let s1 := handle_touch t' x' y' s0 in
            current_screen s1 = 2 /\ height s1 = 240
            /\ 5 <= motion_timeout_seconds s1 <= 300
            /\ (contains button_plus10 x' y' = true ->
                motion_timeout_seconds s1
                = Z.min 300 (motion_timeout_seconds s0 + 10))
            /\ (contains button_minus10 x' y' = true ->
                motion_timeout_seconds s1
                = Z.max 5 (motion_timeout_seconds s0 - 10))).
  { intros s0 t' x' y' Hs Hh Hr Hy. cbv zeta.
    destruct (handle_touch_dispatch t' x' y' s0) as (Hcur & Hsec & _).
    cbv zeta in Hcur, Hsec. rewrite Hcur, Hsec.
    destruct (touch_dispatch_settings x' y'
                (set_last_touch_time t' (set_manual_mode true s0))
                Hs Hh Hr) as (Hkeep & Hm10 & Hp10 & _).
    cbv zeta in Hkeep, Hm10, Hp10.
    destruct (handle_touch_geometry t' x' y' s0) as [_ Hh'].
    split.
    { apply touch_dispatch_stays_on_settings; [exact Hs|].
      unfold in_navigation_bar. project_fields.
      rewrite Hh, Z.geb_leb. apply Z.leb_gt. lia. }
    split; [congruence|]. split; [exact Hkeep|].
    split; [intros Hin; exact (proj1 (Hp10 Hin))
           | intros Hin; exact (proj1 (Hm10 Hin))]. }
  assert (Hyp : yp < 200) by (open_rects; lia).
  assert (Hym : ym < 200) by (open_rects; lia).
  destruct (Hpress self t1 xp yp Hscreen Hheight Hrange Hyp)
    as (Hs1 & Hh1 & Hr1 & Hv1 & _).
  destruct (Hpress _ t2 xm ym Hs1 Hh1 Hr1 Hym) as (_ & _ & _ & _ & Hv2).
  destruct (Hpress self t1 xm ym Hscreen Hheight Hrange Hym)
    as (Hs3 & Hh3 & Hr3 & _ & Hv3).
  destruct (Hpress _ t2 xp yp Hs3 Hh3 Hr3 Hyp) as (_ & _ & _ & Hv4 & _).
  cbv zeta in Hv1, Hv2, Hv3, Hv4.
  specialize (Hv1 Hplus). specialize (Hv2 Hminus).
  specialize (Hv3 Hminus). specialize (Hv4 Hplus).
  rewrite Hv2, Hv1, Hv4, Hv3. repeat split; lia.
Qed.

Lemma plus_minus_ten_witness :
  let self := handle_touch 100 300 220 (SmartPlantDisplay_init true 0) in
  motion_timeout_seconds
    (handle_touch 300 30 60 (handle_touch 200 250 60 self)) = 30.
Proof.
  destruct (plus_minus_ten
              (handle_touch 100 300 220 (SmartPlantDisplay_init true 0))
              200 300 250 60 30 60) as (_ & Hback & _);
    [reflexivity | reflexivity | vm_compute; split; discriminate
    | reflexivity | reflexivity |].
  apply Hback. vm_compute. discriminate.
Defined.

(** X19. A touch restarts the idle clock whatever the state was: the next
    timeout check leaves manual mode exactly when more than 60000 ms have
    elapsed since the touch, and further checks at or before 60000 ms keep
    it. *)
Theorem touch_restarts_idle_clock (self : SmartPlantDisplay)
  (t x y t' : Z) (times : list Z) :
  manual_mode (check_auto_mode_timeout t' (handle_touch t x y self))
  = negb (ticks_diff t' t >? 60000)
  /\ (Forall (fun u => ticks_diff u t <= 60000) times ->
      manual_mode (check_timeouts times (handle_touch t x y self)) = true).
Proof.
  destruct (handle_touch_manual t x y self) as [Hmode Hclock].
  split.
  - unfold check_auto_mode_timeout. rewrite Hmode, Hclock.
    destruct (ticks_diff t' t >? 60000); [reflexivity | exact Hmode].
  - intros Hearly.
    destruct (check_timeouts_early times (handle_touch t x y self))
      as [Hsame _]; [rewrite Hclock; exact Hearly|].
    rewrite Hsame. exact Hmode.
Qed.

Lemma touch_restarts_idle_clock_witness :
  manual_mode
    (check_timeouts [50000; 70000; 110000]
       (handle_touch 50000 5 5 (SmartPlantDisplay_init true 0))) = true.
Proof.
  destruct (touch_restarts_idle_clock (SmartPlantDisplay_init true 0)
              50000 5 5 0 [50000; 70000; 110000]) as [_ Hkeep].
  apply Hkeep. repeat constructor; vm_compute; discriminate.
Defined.

(** Rectangles that pairwise share no point: at most one holds a given
    point. *)
Lemma disjoint_rects_one_hit (rects : list rect) (x y : Z) :
  ForallOrdPairs
    (fun r1 r2 => forall u v,
         contains r1 u v = true -> contains r2 u v = true -> False) rects ->
  (length (filter (fun r => contains r x y) rects) <= 1)%nat.
Proof.
  induction 1 as [|r rects Hhead _ IH]; cbn [filter length]; [lia|].
  destruct (contains r x y) eqn:Hin; [|exact IH].
  assert (Hnone : filter (fun r' => contains r' x y) rects = []).
  { clear IH. induction Hhead as [|r' rects Hr' _ IHrects];
      [reflexivity|].
    cbn [filter]. destruct (contains r' x y) eqn:Hin';
      [exfalso; exact (Hr' x y Hin Hin') | exact IHrects]. }
  rewrite Hnone. cbn [length]. lia.
Qed.

(** X20. Whatever the point, at most one widget of the main screen and at
    most one button of the Settings screen contains it, so the order of the
    tests in [handle_touch] does not matter; and all of them lie on the
    screen and end above row 200, where the navigation bar of the 240-row
    display begins. *)
Theorem hit_regions_disjoint (x y : Z) :
  (length (filter (fun r => contains r x y) main_widgets) <= 1)%nat
  /\ (length (filter (fun r => contains r x y) settings_buttons) <= 1)%nat
  /\ Forall (fun r => 0 <= rx0 r <= rx1 r /\ rx1 r < 320
                      /\ 0 <= ry0 r <= ry1 r /\ ry1 r < 200)
            (main_widgets ++ settings_buttons).
Proof.
  split; [|split].
  - apply disjoint_rects_one_hit. unfold main_widgets.
    repeat constructor; intros u v H1 H2; open_rects; lia.
  - apply disjoint_rects_one_hit. unfold settings_buttons.
    repeat constructor; intros u v H1 H2; open_rects; lia.
  - unfold main_widgets, settings_buttons, button_minus10, button_plus10,
      button_minus5, button_plus5, preset_button.
    cbn [app].
    repeat (apply Forall_cons; [cbn [rx0 ry0 rx1 ry1]; lia|]).
    apply Forall_nil.
Qed.

(** * Light quality *)



(** * Text *)

Lemma enumerate_In {A : Type} (l : list A) (i : Z) (v : A) :
  In (i, v) (enumerate l) -> 0 <= i < Z.of_nat (length l).
Proof.
  unfold enumerate. intros Hin. apply in_combine_l in Hin.
  apply range_In_iff in Hin. exact Hin.
Qed.

Lemma font_lookup_In (table : list (ascii * list (list Z))) (c : ascii)
  (pattern : list (list Z)) :
  font_lookup table c = Some pattern -> In (c, pattern) table.
Proof.
  induction table as [|[key p] table IH]; cbn [font_lookup];
    [discriminate|].
  destruct (Ascii.eqb_spec key c) as [->|Hne].
  - intros Hsome. injection Hsome as ->. left. reflexivity.
  - intros Hsome. right. apply IH, Hsome.
Qed.

Lemma font_glyphs_fit (c : ascii) (pattern : list (list Z)) :
  font_lookup font c = Some pattern -> glyph_fits pattern = true.
Proof.
  intros Hsome. apply font_lookup_In in Hsome.
  assert (Hall : forallb (fun entry => glyph_fits (snd entry)) font = true)
    by (vm_compute; reflexivity).
  rewrite forallb_forall in Hall. exact (Hall _ Hsome).
Qed.

(** The pixels of a glyph that fits lie in its cell of 10 by 14. *)
Lemma glyph_calls_in_cell (char_x y color : Z) (pattern : list (list Z)) :
  glyph_fits pattern = true ->
  Forall (call_in_box char_x y 10 14) (glyph_calls char_x y pattern color).
Proof.
  intros Hfits. unfold glyph_fits in Hfits.
  apply andb_true_iff in Hfits. destruct Hfits as [Hrows Hcols].
  apply Nat.leb_le in Hrows. rewrite forallb_forall in Hcols.
  unfold glyph_calls. apply Forall_forall. intros call Hin.
  apply in_flat_map in Hin. destruct Hin as ([row_idx row] & Hrow & Hin).
  apply in_flat_map in Hin. destruct Hin as ([col_idx pixel] & Hcol & Hin).
  pose proof (enumerate_In _ _ _ Hrow) as Hr.
  pose proof (enumerate_In _ _ _ Hcol) as Hc.
  assert (Hwidth : (length row <= 5)%nat).
  { apply Nat.leb_le, Hcols. unfold enumerate in Hrow.
    apply in_combine_r in Hrow. exact Hrow. }
  destruct (pixel =? 0); [contradiction|].
  apply in_flat_map in Hin. destruct Hin as (dx & Hdx & Hin).
  apply in_flat_map in Hin. destruct Hin as (dy & Hdy & Hin).
  apply range_In_iff in Hdx. apply range_In_iff in Hdy.
  destruct Hin as [<-|[]]. cbn [call_in_box]. lia.
Qed.

Lemma draw_simple_text_loop_app (a b : list ascii) (char_x y color : Z) :
  draw_simple_text_loop (a ++ b) char_x y color
  = draw_simple_text_loop a char_x y color
    ++ draw_simple_text_loop b (char_x + 12 * Z.of_nat (length a)) y color.
Proof.
  revert char_x. induction a as [|c a IH]; intros char_x.
  - cbn [app draw_simple_text_loop length]. f_equal. lia.
  - cbn [app draw_simple_text_loop length]. rewrite IH.
    replace (char_x + 12 + 12 * Z.of_nat (length a))
      with (char_x + 12 * Z.of_nat (S (length a))) by lia.
    destruct (font_lookup font c); [rewrite app_assoc|]; reflexivity.
Qed.

Lemma draw_simple_text_loop_in_box (chars : list ascii)
  (char_x y color : Z) :
  Forall (call_in_box char_x y (12 * Z.of_nat (length chars)) 14)
         (draw_simple_text_loop chars char_x y color).
Proof.
  revert char_x. induction chars as [|c chars IH]; intros char_x;
    cbn [draw_simple_text_loop]; [constructor|].
  assert (Hrest : Forall (call_in_box char_x y
                            (12 * Z.of_nat (length (c :: chars))) 14)
                    (draw_simple_text_loop chars (char_x + 12) y color)).
  { eapply Forall_impl; [|exact (IH (char_x + 12))].
    intros call. apply call_in_box_wider; cbn [length]; lia. }
  destruct (font_lookup font c) as [pattern|] eqn:Hglyph; [|exact Hrest].
  apply Forall_app. split; [|exact Hrest].
  eapply Forall_impl;
    [|exact (glyph_calls_in_cell char_x y color pattern
               (font_glyphs_fit c pattern Hglyph))].
  intros call. apply call_in_box_wider; cbn [length]; lia.
Qed.

(** X22. [draw_simple_text] only makes calls inside the box of 12
    columns per character and 14 rows that starts at (x, y); and drawing a
    text in two parts, the second part moved right by 12 columns per
    character of the first, makes the same calls as drawing it whole. *)
Theorem draw_simple_text_layout (x y color : Z) (text more : list ascii) :
  Forall (call_in_box x y (12 * Z.of_nat (length text)) 14)
         (draw_simple_text_calls x y text color)
  /\ draw_simple_text_calls x y (text ++ more) color
     = draw_simple_text_calls x y text color
       ++ draw_simple_text_calls (x + 12 * Z.of_nat (length text)) y more
            color.
Proof.
  unfold draw_simple_text_calls, upper. split.
  - rewrite <- (length_map upper_char text).
    apply draw_simple_text_loop_in_box.
  - rewrite map_app, draw_simple_text_loop_app, length_map. reflexivity.
Qed.

Lemma upper_char_idempotent (c : ascii) :
  upper_char (upper_char c) = upper_char c
  /\ upper_char c <> "s"%char /\ upper_char c <> "m"%char.
Proof.
  assert (Hall : forallb
            (fun k =>
               Ascii.eqb (upper_char (upper_char k)) (upper_char k)
               && negb (Ascii.eqb (upper_char k) "s")
               && negb (Ascii.eqb (upper_char k) "m"))
            (map ascii_of_nat (seq 0 256)) = true)
    by (vm_compute; reflexivity).
  rewrite forallb_forall in Hall.
  assert (Hc : In c (map ascii_of_nat (seq 0 256))).
  { apply in_map_iff. exists (nat_of_ascii c).
    split; [apply ascii_nat_embedding|].
    apply in_seq. pose proof (nat_ascii_bounded c). lia. }
  specialize (Hall c Hc).
  rewrite !andb_true_iff, !negb_true_iff in Hall.
  destruct Hall as [[Hidem Hs] Hm].
  split; [apply Ascii.eqb_eq, Hidem|].
  split; apply Ascii.eqb_neq; assumption.
Qed.

(** X23. A character whose upper-case form has no glyph draws nothing but
    still takes its 12 columns.  That is so for the digits 6 to 9 and for
    the letters J, K, Q, W, X, Y and Z in either case.  The text is
    upper-cased first, so the glyphs stored under "s" and "m" are never
    drawn: a text draws as its upper-case form does. *)
Theorem draw_simple_text_missing_glyphs (x y color : Z) (c : ascii)
  (text : list ascii) :
  (font_lookup font (upper_char c) = None ->
   draw_simple_text_calls x y (c :: text) color
   = draw_simple_text_calls (x + 12) y text color)
  /\ Forall (fun k => font_lookup font (upper_char k) = None)
       [ "6"; "7"; "8"; "9"; "J"; "K"; "Q"; "W"; "X"; "Y"; "Z";
         "j"; "k"; "q"; "w"; "x"; "y"; "z" ]%char
  /\ upper_char c <> "s"%char /\ upper_char c <> "m"%char
  /\ draw_simple_text_calls x y text color
     = draw_simple_text_calls x y (upper text) color
  /\ font_lookup font "s"%char <> font_lookup font "S"%char.
Proof.
  split; [|split; [|split; [|split; [|split]]]].
  - intros Hnone. unfold draw_simple_text_calls, upper.
    cbn [map draw_simple_text_loop]. rewrite Hnone. reflexivity.
  - repeat constructor.
  - exact (proj1 (proj2 (upper_char_idempotent c))).
  - exact (proj2 (proj2 (upper_char_idempotent c))).
  - unfold draw_simple_text_calls, upper. rewrite map_map.
    f_equal. apply map_ext. intros k.
    symmetry. exact (proj1 (upper_char_idempotent k)).
  - vm_compute. discriminate.
Qed.

Lemma draw_simple_text_missing_glyphs_witness :
  draw_simple_text_calls 20 150 ["6"; "0"; "s"]%char 0
  = draw_simple_text_calls 32 150 ["0"; "s"]%char 0.
Proof.
  destruct (draw_simple_text_missing_glyphs 20 150 0 "6"%char
              ["0"; "s"]%char) as [Hskip _].
  apply Hskip. reflexivity.
Defined.
